(** * gptcache.adapter.openai: response adaptation layer

    A shallow embedding of [src/gptcache/adapter/openai.py].  Python objects
    live in a store indexed by references, effects are threaded through a
    state-and-exception monad [Py], and the collaborators the module imports
    (response helpers, tokenizer, Pillow, the orchestration core) are
    interfaces given as type classes. *)

From Stdlib Require Import ZArith List String Ascii DecimalString.
From Stdlib.Strings Require Import Byte.
From stdpp Require Import gmap strings list.

Set Warnings "-register-all".
Open Scope string_scope.
Open Scope list_scope.

(** ** Python values *)

(** Immutable Python data: [None], [bool], [int], [str], [bytes], [list]
    and [dict] (insertion-ordered items).  Tuples of integers appear only as
    image sizes and are kept as [list Z] where they occur. *)
Inductive PyVal : Type :=
| VNone
| VBool (b : bool)
| VInt (z : Z)
| VStr (s : string)
| VBytes (bs : list byte)
| VList (xs : list PyVal)
| VDict (kvs : list (string * PyVal)).

(** Keyword arguments [**kwargs]. *)
Abbreviation Kwargs := (gmap string PyVal).

(** Modelled from the spec: the enum [DataType] of
    [gptcache.manager.scalar_data.base], the [kind] of a CanonicalAnswer
    (TEXT is [STR]). *)
Inductive DataType : Type := STR | IMAGE_BASE64 | IMAGE_URL.

(** Modelled from the spec: the record [Answer] of
    [gptcache.manager.scalar_data.base], a CanonicalAnswer
    [{content, kind}]. *)
Record Answer : Type := mkAnswer { answer : PyVal; answer_type : DataType }.

(** ** Exceptions and results *)

Inductive Exn : Type :=
| AttributeError (msg : string)
| TypeError (msg : string)
| ValueError (msg : string)
| RecursionError
| UnicodeEncodeError
| OpenAIError (msg : string)
| CacheError (msg : string)
| OtherError (name msg : string).

Inductive Res (A : Type) : Type :=
| Ok (a : A)
| Raise (e : Exn).
Arguments Ok {A} a.
Arguments Raise {A} e.

(** ** The object store *)

Definition loc := positive.

Inductive GenStatus : Type := GEN_CREATED | GEN_SUSPENDED | GEN_RUNNING | GEN_CLOSED.

(** The frame of one [hook_openai_data] generator: its argument [it], its
    local [total_answer], and where its execution stands. *)
Record GenFrame : Type := mkGen {
  gen_it : loc;
  total_answer : string;
  gen_status : GenStatus
}.

Inductive Obj : Type :=
| OValue (v : PyVal)            (* a response object (dict-like) *)
| OStream (rest : list PyVal)   (* the backend's single-pass chunk iterator *)
| OGen (g : GenFrame).          (* a hook_openai_data generator *)

(** The world: the object store plus a record of every interaction with
    the outside, in order. *)
Record World : Type := mkWorld {
  heap : gmap loc Obj;
  stored : list Answer;                 (* answers handed to the storage hook *)
  tokenized : list PyVal;               (* arguments of token_counter calls *)
  files : gmap string (list byte);      (* files written, by path *)
  adapt_calls : list Kwargs;            (* keyword arguments of adapt calls *)
  ticks : nat                           (* number of time.time() readings *)
}.

Definition set_heap (h : gmap loc Obj) (w : World) : World :=
  mkWorld h (stored w) (tokenized w) (files w) (adapt_calls w) (ticks w).
Definition set_stored (s : list Answer) (w : World) : World :=
  mkWorld (heap w) s (tokenized w) (files w) (adapt_calls w) (ticks w).
Definition set_tokenized (t : list PyVal) (w : World) : World :=
  mkWorld (heap w) (stored w) t (files w) (adapt_calls w) (ticks w).
Definition set_files (f : gmap string (list byte)) (w : World) : World :=
  mkWorld (heap w) (stored w) (tokenized w) f (adapt_calls w) (ticks w).
Definition set_adapt_calls (c : list Kwargs) (w : World) : World :=
  mkWorld (heap w) (stored w) (tokenized w) (files w) c (ticks w).
Definition set_ticks (n : nat) (w : World) : World :=
  mkWorld (heap w) (stored w) (tokenized w) (files w) (adapt_calls w) n.

Definition set_obj (l : loc) (o : Obj) (w : World) : World :=
  set_heap (<[l := o]> (heap w)) w.

(** ** The monad of Python computations *)

Definition Py (A : Type) : Type := World -> Res A * World.

Definition ret {A} (a : A) : Py A := fun w => (Ok a, w).
Definition raise {A} (e : Exn) : Py A := fun w => (Raise e, w).
Definition bind {A B} (m : Py A) (k : A -> Py B) : Py B :=
  fun w => match m w with
           | (Ok a, w') => k a w'
           | (Raise e, w') => (Raise e, w')
           end.
Definition lift {A} (r : Res A) : Py A := fun w => (r, w).

Declare Scope py_scope.
Delimit Scope py_scope with py.
Notation "x <- m ;; k" := (bind m (fun x => k))
  (at level 100, m at next level, right associativity) : py_scope.
Notation "m ;;; k" := (bind m (fun _ => k))
  (at level 100, right associativity) : py_scope.
Open Scope py_scope.

(** [obj = fresh object]: allocation at an unused reference. *)
Definition alloc (o : Obj) : Py loc :=
  fun w => let l := fresh (dom (heap w)) in (Ok l, set_obj l o w).

(** Reading a response object; iterators are not subscriptable. *)
Definition read_value (l : loc) : Py PyVal :=
  fun w => match heap w !! l with
           | Some (OValue v) => (Ok v, w)
           | _ => (Raise (TypeError "object is not subscriptable"), w)
           end.

(** [isinstance(x, Iterator)]. *)
Definition isinstance_Iterator (l : loc) : Py bool :=
  fun w => match heap w !! l with
           | Some (OStream _) | Some (OGen _) => (Ok true, w)
           | _ => (Ok false, w)
           end.

(** The storage hook the orchestration core hands to the callbacks, as the
    cache sees it: the answer is recorded. *)
Definition cache_store (a : Answer) : Py unit :=
  fun w => (Ok tt, set_stored (stored w ++ [a]) w).

(** ** Imported collaborators *)

(** [gptcache.utils.response]: readers of the backend's response shapes.
    Each may raise on a response of another shape. *)
Class ResponseUtils : Type := {
  get_stream_message_from_openai_answer : PyVal -> Res string;
  get_message_from_openai_answer : PyVal -> Res PyVal;
  get_text_from_openai_answer : PyVal -> Res PyVal;
  get_image_from_openai_b64 : PyVal -> Res PyVal;
  get_image_from_openai_url : PyVal -> Res PyVal;
  get_audio_text_from_openai_answer : PyVal -> Res PyVal
}.


(** [gptcache.utils.token.token_counter], the tokenizer primitive. *)
Class Tokenizer : Type := { count_tokens : PyVal -> Z }.

(** The interpreter and standard library used by the module: [str(x)] as
    f-strings apply it, [int(s)] on a string, [os.path.abspath],
    [base64], [json] and the wall clock behind [time.time()]. *)
Class Runtime : Type := {
  py_str : PyVal -> string;
  py_int : string -> Res Z;
  abspath : string -> string;
  b64decode : PyVal -> Res (list byte);
  b64encode : list byte -> list byte;
  json_loads : PyVal -> Res PyVal;
  json_dumps : PyVal -> Res string;
  time_at : nat -> Z
}.

(** Pillow: [PIL.Image.open], [img.size], [img.resize], [img.save]. *)
Class Pillow : Type := {
  PILImage : Type;
  pil_open : list byte -> Res PILImage;
  pil_size : PILImage -> list Z;
  pil_resize : PILImage -> list Z -> Res PILImage;
  pil_save_jpeg : PILImage -> Res (list byte)
}.

(** The three callables every entry point gives to [adapt]. *)
Definition LlmHandler : Type := list PyVal -> Kwargs -> Py loc.
Definition CacheDataConvert : Type := PyVal -> Py PyVal.
Definition UpdateCacheCallback : Type := loc -> (Answer -> Py unit) -> Py loc.

Inductive Endpoint : Type :=
| EP_ChatCompletion | EP_Completion | EP_Transcribe | EP_Translate
| EP_Image | EP_Moderation.

(** The live backend client ([openai.*.create] and friends, reached through
    [super()]), the per-class override [cls.llm], and
    [gptcache.utils.error.wrap_error]. *)
Class Backend : Type := {
  openai_call : Endpoint -> LlmHandler;
  cls_llm : Endpoint -> option LlmHandler;
  wrap_error : string -> Exn
}.

(** The orchestration core: [gptcache.adapter.adapter.adapt],
    [BaseCacheLLM.fill_base_args] and the [enable_token_counter] flag of the
    cache object a call is routed to. *)
Class CacheCore : Type := {
  adapt_impl : LlmHandler -> CacheDataConvert -> UpdateCacheCallback ->
               list PyVal -> Kwargs -> Py loc;
  fill_base_args : Kwargs -> Kwargs;
  enable_token_counter : Kwargs -> bool
}.

(** A call of [adapt]; the keyword arguments of every call are recorded,
    whatever the core does with them. *)
Definition adapt `{CacheCore} (llm_handler : LlmHandler)
    (cache_data_convert : CacheDataConvert)
    (update_cache_callback : UpdateCacheCallback)
    (args : list PyVal) (kwargs : Kwargs) : Py loc :=
  fun w =>
    let (r, w') := adapt_impl llm_handler cache_data_convert
                     update_cache_callback args kwargs w in
    (r, set_adapt_calls (adapt_calls w ++ [kwargs]) w').

(** A call of [token_counter]; its argument is recorded. *)
Definition token_counter `{Tokenizer} (v : PyVal) : Py Z :=
  fun w => (Ok (count_tokens v), set_tokenized (tokenized w ++ [v]) w).

(** [int(time.time())]. *)
Definition time_time `{Runtime} : Py Z :=
  fun w => (Ok (time_at (ticks w)), set_ticks (S (ticks w)) w).

(** [with open(path, "wb") as f: f.write(data)], for a write that goes
    through; a file system that refuses the write is not modelled, so
    nothing below is claimed about a build that fails while writing. *)
Definition write_file (path : string) (data : list byte) : Py unit :=
  fun w => (Ok tt, set_files (<[path := data]> (files w)) w).

(** [try: ... except openai.OpenAIError as e: raise wrap_error(e) from e]. *)
Definition wrapping_errors `{Backend} {A} (m : Py A) : Py A :=
  fun w => match m w with
           | (Raise (OpenAIError msg), w') => (Raise (wrap_error msg), w')
           | r => r
           end.

(** ** Python operations on values *)

(** [v == s] for a string literal [s]. *)
Definition py_eq_str (v : PyVal) (s : string) : bool :=
  match v with
  | VStr s' => String.eqb s' s
  | _ => false
  end.

(** Truth value of an object. *)
Definition py_truthy (v : PyVal) : bool :=
  match v with
  | VNone => false
  | VBool b => b
  | VInt z => negb (z =? 0)%Z
  | VStr s => negb (String.eqb s "")
  | VBytes bs => negb (Nat.eqb (length bs) 0)
  | VList xs => negb (Nat.eqb (length xs) 0)
  | VDict kvs => negb (Nat.eqb (length kvs) 0)
  end.

Fixpoint assoc_get (key : string) (kvs : list (string * PyVal)) : option PyVal :=
  match kvs with
  | [] => None
  | (k, v) :: rest => if String.eqb k key then Some v else assoc_get key rest
  end.

(** [obj.get(key)]. *)
Definition py_get (obj : PyVal) (key : string) : Res PyVal :=
  match obj with
  | VDict kvs => Ok (default VNone (assoc_get key kvs))
  | _ => Raise (AttributeError "object has no attribute 'get'")
  end.

(** [len(obj)]. *)
Definition py_len (obj : PyVal) : Res nat :=
  match obj with
  | VStr s => Ok (String.length s)
  | VBytes bs => Ok (length bs)
  | VList xs => Ok (length xs)
  | VDict kvs => Ok (length kvs)
  | _ => Raise (TypeError "object has no len()")
  end.

(** [obj.items()]. *)
Definition py_items (obj : PyVal) : Res (list (string * PyVal)) :=
  match obj with
  | VDict kvs => Ok kvs
  | _ => Raise (AttributeError "object has no attribute 'items'")
  end.

Fixpoint chars_of (s : string) : list PyVal :=
  match s with
  | EmptyString => []
  | String c s' => VStr (String c EmptyString) :: chars_of s'
  end.

(** The items a [for] loop over [obj] visits. *)
Definition py_iter (obj : PyVal) : Res (list PyVal) :=
  match obj with
  | VList xs => Ok xs
  | VDict kvs => Ok (map (fun kv => VStr (fst kv)) kvs)
  | VStr s => Ok (chars_of s)
  | VBytes bs => Ok (map (fun b => VInt (Z.of_N (Byte.to_N b))) bs)
  | _ => Raise (TypeError "object is not iterable")
  end.

(** [s.split("x")]: the pieces between occurrences of the separator. *)
Fixpoint split_on (sep : ascii) (s : string) : list string :=
  match s with
  | EmptyString => [EmptyString]
  | String c s' =>
    if Ascii.eqb c sep then EmptyString :: split_on sep s'
    else match split_on sep s' with
         | [] => [String c EmptyString]
         | piece :: pieces => String c piece :: pieces
         end
  end.

Definition py_split_x (obj : PyVal) : Res (list string) :=
  match obj with
  | VStr s => Ok (split_on "x"%char s)
  | VBytes _ => Raise (TypeError "a bytes-like object is required, not 'str'")
  | _ => Raise (AttributeError "object has no attribute 'split'")
  end.

(** [tuple(f(a) for a in xs)]: left to right, stopping at the first error. *)
Fixpoint map_res {A B} (f : A -> Res B) (xs : list A) : Res (list B) :=
  match xs with
  | [] => Ok []
  | x :: rest =>
    match f x with
    | Ok y => match map_res f rest with
              | Ok ys => Ok (y :: ys)
              | Raise e => Raise e
              end
    | Raise e => Raise e
    end
  end.

(** [s.encode("ascii")]. *)
Definition encode_ascii (s : string) : Res (list byte) :=
  if forallb (fun b => (Byte.to_N b <? 128)%N) (list_byte_of_string s)
  then Ok (list_byte_of_string s)
  else Raise UnicodeEncodeError.

(** ** Response builders *)

Section Builders.
Context `{RT : Runtime} `{PIL : Pillow} `{TK : Tokenizer}.

Definition zero_usage : PyVal :=
  VDict [("completion_tokens", VInt 0); ("prompt_tokens", VInt 0);
         ("total_tokens", VInt 0)].

Definition _construct_resp_from_cache (return_message saved_token : PyVal)
    : Py PyVal :=
  created <- time_time ;;
  ret (VDict
    [("gptcache", VBool true);
     ("saved_token", saved_token);
     ("choices",
      VList [VDict [("message", VDict [("role", VStr "assistant");
                                       ("content", return_message)]);
                    ("finish_reason", VStr "stop");
                    ("index", VInt 0)]]);
     ("created", VInt created);
     ("usage", zero_usage);
     ("object", VStr "chat.completion")]).

Definition _construct_stream_resp_from_cache (return_message saved_token : PyVal)
    : Py PyVal :=
  created <- time_time ;;
  ret (VList
    [VDict [("choices",
             VList [VDict [("delta", VDict [("role", VStr "assistant")]);
                           ("finish_reason", VNone);
                           ("index", VInt 0)]]);
            ("created", VInt created);
            ("object", VStr "chat.completion.chunk")];
     VDict [("choices",
             VList [VDict [("delta", VDict [("content", return_message)]);
                           ("finish_reason", VNone);
                           ("index", VInt 0)]]);
            ("created", VInt created);
            ("object", VStr "chat.completion.chunk")];
     VDict [("gptcache", VBool true);
            ("choices",
             VList [VDict [("delta", VDict []);
                           ("finish_reason", VStr "stop");
                           ("index", VInt 0)]]);
            ("created", VInt created);
            ("object", VStr "chat.completion.chunk");
            ("saved_token", saved_token)]]).

Definition _construct_text_from_cache (return_text : PyVal) : Py PyVal :=
  created <- time_time ;;
  ret (VDict
    [("gptcache", VBool true);
     ("choices",
      VList [VDict [("text", return_text);
                    ("finish_reason", VStr "stop");
                    ("index", VInt 0)]]);
     ("created", VInt created);
     ("usage", zero_usage);
     ("object", VStr "text_completion")]).

Definition _construct_audio_text_from_cache (return_text : PyVal) : Py PyVal :=
  ret (VDict [("gptcache", VBool true); ("text", return_text)]).

(** The bytes the image builder hands out: the stored bytes when the
    requested size is the image's own, else the image resized and saved
    as JPEG. *)
Definition image_payload (img_bytes : list byte) (img : PILImage)
    (new_size : list Z) : Res (list byte) :=
  if decide (new_size <> pil_size img) then
    match pil_resize img new_size with
    | Ok img' => pil_save_jpeg img'
    | Raise e => Raise e
    end
  else Ok img_bytes.

Definition invalid_response_format (response_format : PyVal) : Exn :=
  AttributeError ("Invalid response_format: " +:+ py_str response_format
                  +:+ " is not one of ['url', 'b64_json']").

Definition _construct_image_create_resp_from_cache
    (image_data response_format size : PyVal) : Py PyVal :=
  img_bytes <- lift (b64decode image_data) ;;
  img <- lift (pil_open img_bytes) ;;
  pieces <- lift (py_split_x size) ;;
  new_size <- lift (map_res py_int pieces) ;;
  buffered <- lift (image_payload img_bytes img new_size) ;;
  field <-
    (if py_eq_str response_format "url" then
       now <- time_time ;;
       let target_url := abspath (py_str (VInt now) +:+ ".jpeg") in
       write_file target_url buffered ;;;
       ret ("url", VStr target_url)
     else if py_eq_str response_format "b64_json" then
       ret ("b64_json", VStr (string_of_list_byte (b64encode buffered)))
     else
       raise (invalid_response_format response_format)) ;;
  created <- time_time ;;
  ret (VDict [("gptcache", VBool true);
              ("created", VInt created);
              ("data", VList [VDict [field]])]).

(** ** Token accounting *)

Definition tokens_per_message : Z := 3.
Definition tokens_per_name : Z := 1.

(** The inner loop [for key, value in message.items()]. *)
Fixpoint count_items (items : list (string * PyVal)) (num_tokens : Z) : Py Z :=
  match items with
  | [] => ret num_tokens
  | (key, value) :: rest =>
    n <- token_counter value ;;
    let num_tokens := (num_tokens + n)%Z in
    let num_tokens :=
      if String.eqb key "name" then (num_tokens + tokens_per_name)%Z
      else num_tokens in
    count_items rest num_tokens
  end.

(** The outer loop [for message in messages]. *)
Fixpoint count_messages (messages : list PyVal) (num_tokens : Z) : Py Z :=
  match messages with
  | [] => ret num_tokens
  | message :: rest =>
    let num_tokens := (num_tokens + tokens_per_message)%Z in
    items <- lift (py_items message) ;;
    num_tokens <- count_items items num_tokens ;;
    count_messages rest num_tokens
  end.

Definition _num_tokens_from_messages (messages : PyVal) : Py Z :=
  msgs <- lift (py_iter messages) ;;
  num_tokens <- count_messages msgs 0%Z ;;
  ret (num_tokens + 3)%Z.
End Builders.

(** What [next(x)] hands back: an item, or [StopIteration]. *)
Inductive NextResult : Type :=
| Yielded (item : PyVal)
| Exhausted.

(** ** class ChatCompletion *)

Module ChatCompletion.
Section Chat.
Context `{RU : ResponseUtils} `{RT : Runtime} `{TK : Tokenizer}
        `{BE : Backend} `{CC : CacheCore}.

Definition _llm_handler : LlmHandler := fun llm_args llm_kwargs =>
  wrapping_errors
    (match cls_llm EP_ChatCompletion with
     | None => openai_call EP_ChatCompletion llm_args llm_kwargs
     | Some llm => llm llm_args llm_kwargs
     end).

Definition close_gen (l : loc) (g : GenFrame) : World -> World :=
  set_obj l (OGen (mkGen (gen_it g) (total_answer g) GEN_CLOSED)).

(** [next(x)] on an iterator object.  For a [hook_openai_data] generator
    this resumes the body

      total_answer = ""
      for item in it:
          total_answer += get_stream_message_from_openai_answer(item)
          yield item
      update_cache_func(Answer(total_answer, DataType.STR))

    up to its next [yield] or its end; [update_cache_func] is the hook
    the generator closed over.  [depth] bounds the nesting of generators
    over generators (the interpreter's recursion limit). *)
Fixpoint py_next (update_cache_func : Answer -> Py unit) (depth : nat)
    (l : loc) : Py NextResult :=
  match depth with
  | O => raise RecursionError
  | S depth' => fun w =>
    match heap w !! l with
    | Some (OStream (c :: rest)) => (Ok (Yielded c), set_obj l (OStream rest) w)
    | Some (OStream []) => (Ok Exhausted, w)
    | Some (OGen g) =>
      match gen_status g with
      | GEN_CLOSED => (Ok Exhausted, w)
      | GEN_RUNNING => (Raise (ValueError "generator already executing"), w)
      | GEN_CREATED | GEN_SUSPENDED =>
        let w1 := set_obj l (OGen (mkGen (gen_it g) (total_answer g) GEN_RUNNING)) w in
        match py_next update_cache_func depth' (gen_it g) w1 with
        | (Ok (Yielded item), w2) =>
          match get_stream_message_from_openai_answer item with
          | Ok s =>
            (Ok (Yielded item),
             set_obj l (OGen (mkGen (gen_it g) (total_answer g +:+ s)
                                    GEN_SUSPENDED)) w2)
          | Raise e => (Raise e, close_gen l g w2)
          end
        | (Ok Exhausted, w2) =>
          match update_cache_func (mkAnswer (VStr (total_answer g)) STR) w2 with
          | (Ok _, w3) => (Ok Exhausted, close_gen l g w3)
          | (Raise e, w3) => (Raise e, close_gen l g w3)
          end
        | (Raise e, w2) => (Raise e, close_gen l g w2)
        end
      end
    | _ => (Raise (TypeError "object is not an iterator"), w)
    end
  end.

(** [x.close()], which is also what happens to a suspended generator
    that is dropped: GeneratorExit is raised at the [yield] and nothing
    after the loop runs. *)
Definition py_close (l : loc) : Py unit :=
  fun w => match heap w !! l with
           | Some (OGen g) =>
             match gen_status g with
             | GEN_RUNNING =>
               (Raise (ValueError "generator already executing"), w)
             | _ => (Ok tt, close_gen l g w)
             end
           | _ => (Ok tt, w)
           end.

(** Calling the generator function only builds the generator object. *)
Definition hook_openai_data (it : loc) : Py loc :=
  alloc (OGen (mkGen it "" GEN_CREATED)).

Definition _update_cache_callback : UpdateCacheCallback :=
  fun llm_data update_cache_func =>
    is_iterator <- isinstance_Iterator llm_data ;;
    if negb is_iterator then
      v <- read_value llm_data ;;
      message <- lift (get_message_from_openai_answer v) ;;
      update_cache_func (mkAnswer message STR) ;;;
      ret llm_data
    else
      hook_openai_data llm_data.

(** The closure [cache_data_convert] of [create], over
    [enable_token_counter] and [kwargs]. *)
Definition cache_data_convert (enable_token_counter : bool) (kwargs : Kwargs)
    : CacheDataConvert := fun cache_data =>
  saved_token <-
    (if enable_token_counter then
       input_token <- _num_tokens_from_messages
                        (default VNone (kwargs !! "messages")) ;;
       output_token <- token_counter cache_data ;;
       ret (VList [VInt input_token; VInt output_token])
     else
       ret (VList [VInt 0; VInt 0])) ;;
  if py_truthy (default (VBool false) (kwargs !! "stream")) then
    _construct_stream_resp_from_cache cache_data saved_token
  else
    _construct_resp_from_cache cache_data saved_token.

Definition create (args : list PyVal) (kwargs : Kwargs) : Py loc :=
  let flag := enable_token_counter kwargs in
  let kwargs := fill_base_args kwargs in
  adapt _llm_handler (cache_data_convert flag kwargs) _update_cache_callback
        args kwargs.

(** A consumer that asks for at most [k] items: the items it received,
    and whether it was told the sequence had ended. *)
Fixpoint pull (update_cache_func : Answer -> Py unit) (depth k : nat)
    (g : loc) : Py (list PyVal * bool) :=
  match k with
  | O => ret ([], false)
  | S k' =>
    r <- py_next update_cache_func depth g ;;
    match r with
    | Yielded c =>
      rest <- pull update_cache_func depth k' g ;;
      ret (c :: fst rest, snd rest)
    | Exhausted => ret ([], true)
    end
  end.
End Chat.
End ChatCompletion.

(** ** class Completion *)

Module Completion.
Section Completion.
Context `{RU : ResponseUtils} `{RT : Runtime} `{BE : Backend} `{CC : CacheCore}.

Definition _llm_handler : LlmHandler := fun llm_args llm_kwargs =>
  wrapping_errors
    (match cls_llm EP_Completion with
     | None => openai_call EP_Completion llm_args llm_kwargs
     | Some llm => llm llm_args llm_kwargs
     end).

Definition _cache_data_convert : CacheDataConvert := fun cache_data =>
  _construct_text_from_cache cache_data.

Definition _update_cache_callback : UpdateCacheCallback :=
  fun llm_data update_cache_func =>
    v <- read_value llm_data ;;
    text <- lift (get_text_from_openai_answer v) ;;
    update_cache_func (mkAnswer text STR) ;;;
    ret llm_data.

Definition create (args : list PyVal) (kwargs : Kwargs) : Py loc :=
  let kwargs := fill_base_args kwargs in
  adapt _llm_handler _cache_data_convert _update_cache_callback args kwargs.
End Completion.
End Completion.

(** ** class Audio *)

Module Audio.
Section Audio.
Context `{RU : ResponseUtils} `{BE : Backend} `{CC : CacheCore}.

Definition llm_handler (ep : Endpoint) : LlmHandler := fun llm_args llm_kwargs =>
  wrapping_errors (openai_call ep llm_args llm_kwargs).

Definition cache_data_convert : CacheDataConvert := fun cache_data =>
  _construct_audio_text_from_cache cache_data.

(** The same closure is written out in [transcribe] and in [translate]. *)
Definition update_cache_callback : UpdateCacheCallback :=
  fun llm_data update_cache_func =>
    v <- read_value llm_data ;;
    text <- lift (get_audio_text_from_openai_answer v) ;;
    update_cache_func (mkAnswer text STR) ;;;
    ret llm_data.

(** [adapt(..., model=model, file=file, *args, **kwargs)]: a keyword
    given twice is a TypeError at the call. *)
Definition call_adapt (ep : Endpoint) (model file : PyVal)
    (args : list PyVal) (kwargs : Kwargs) : Py loc :=
  match kwargs !! "model", kwargs !! "file" with
  | None, None =>
    adapt (llm_handler ep) cache_data_convert update_cache_callback
          args (<["model" := model]> (<["file" := file]> kwargs))
  | _, _ => raise (TypeError "got multiple values for keyword argument")
  end.

Definition transcribe (model file : PyVal) (args : list PyVal) (kwargs : Kwargs)
    : Py loc :=
  call_adapt EP_Transcribe model file args kwargs.

Definition translate (model file : PyVal) (args : list PyVal) (kwargs : Kwargs)
    : Py loc :=
  call_adapt EP_Translate model file args kwargs.
End Audio.
End Audio.

(** ** class Image *)

Module Image.
Section Image.
Context `{RU : ResponseUtils} `{RT : Runtime} `{PIL : Pillow}
        `{BE : Backend} `{CC : CacheCore}.

Definition _llm_handler : LlmHandler := fun llm_args llm_kwargs =>
  wrapping_errors (openai_call EP_Image llm_args llm_kwargs).

(** The closure [cache_data_convert] of [create], over [response_format]
    and [size]. *)
Definition cache_data_convert (response_format size : PyVal)
    : CacheDataConvert := fun cache_data =>
  _construct_image_create_resp_from_cache cache_data response_format size.

(** The closure [update_cache_callback] of [create], over
    [response_format]. *)
Definition update_cache_callback (response_format : PyVal)
    : UpdateCacheCallback := fun llm_data update_cache_func =>
  (if py_eq_str response_format "b64_json" then
     v <- read_value llm_data ;;
     img_b64 <- lift (get_image_from_openai_b64 v) ;;
     img_b64 <- match img_b64 with
                | VStr s => bs <- lift (encode_ascii s) ;; ret (VBytes bs)
                | other => ret other
                end ;;
     update_cache_func (mkAnswer img_b64 IMAGE_BASE64)
   else if py_eq_str response_format "url" then
     v <- read_value llm_data ;;
     img <- lift (get_image_from_openai_url v) ;;
     update_cache_func (mkAnswer img IMAGE_URL)
   else ret tt) ;;;
  ret llm_data.

(** [kwargs.pop(key, default)]: the value and the remaining dictionary. *)
Definition kwargs_pop (key : string) (dflt : PyVal) (kwargs : Kwargs)
    : PyVal * Kwargs :=
  (default dflt (kwargs !! key), delete key kwargs).

Definition create (args : list PyVal) (kwargs : Kwargs) : Py loc :=
  let '(response_format, kwargs) :=
    kwargs_pop "response_format" (VStr "url") kwargs in
  let '(size, kwargs) := kwargs_pop "size" (VStr "256x256") kwargs in
  adapt _llm_handler
        (cache_data_convert response_format size)
        (update_cache_callback response_format)
        args
        (<["response_format" := response_format]> (<["size" := size]> kwargs)).
End Image.
End Image.

(** ** class Moderation *)

Module Moderation.
Section Moderation.
Context `{RT : Runtime} `{BE : Backend} `{CC : CacheCore}.

Definition _llm_handler : LlmHandler := fun llm_args llm_kwargs =>
  wrapping_errors
    (match cls_llm EP_Moderation with
     | None => openai_call EP_Moderation llm_args llm_kwargs
     | Some llm => llm llm_args llm_kwargs
     end).

Definition _cache_data_convert : CacheDataConvert := fun cache_data =>
  lift (json_loads cache_data).

Definition _update_cache_callback : UpdateCacheCallback :=
  fun llm_data update_cache_func =>
    v <- read_value llm_data ;;
    text <- lift (json_dumps v) ;;
    update_cache_func (mkAnswer (VStr text) STR) ;;;
    ret llm_data.

(** [expect_res_len]: 1, or the length of [input] when it is a list. *)
Definition expect_res_len (kwargs : Kwargs) : nat :=
  match kwargs !! "input" with
  | Some (VList input_request_param) => length input_request_param
  | _ => 1
  end.

(** [len(res.get("results"))]. *)
Definition results_len (res : loc) : Py nat :=
  v <- read_value res ;;
  results <- lift (py_get v "results") ;;
  lift (py_len results).

Definition create (args : list PyVal) (kwargs : Kwargs) : Py loc :=
  let kwargs := fill_base_args kwargs in
  res <- adapt _llm_handler _cache_data_convert _update_cache_callback
               args kwargs ;;
  n <- results_len res ;;
  if negb (Nat.eqb n (expect_res_len kwargs)) then
    let kwargs := <["cache_skip" := VBool true]> kwargs in
    adapt _llm_handler _cache_data_convert _update_cache_callback args kwargs
  else
    ret res.
End Moderation.
End Moderation.

(** ** Sample collaborators

    Small concrete implementations of the interfaces, used to run the
    model on concrete inputs. *)

Module Sample.
(** A chunk's delta text: the ["content"] entry, absent meaning empty. *)
Definition delta_text (chunk : PyVal) : Res string :=
  match chunk with
  | VDict kvs =>
    match assoc_get "content" kvs with
    | None => Ok ""
    | Some (VStr s) => Ok s
    | Some _ => Raise (TypeError "can only concatenate str")
    end
  | _ => Raise (TypeError "object is not subscriptable")
  end.

Definition field (key : string) (v : PyVal) : Res PyVal :=
  match v with
  | VDict kvs =>
    match assoc_get key kvs with
    | Some x => Ok x
    | None => Raise (OtherError "KeyError" key)
    end
  | _ => Raise (TypeError "object is not subscriptable")
  end.

Definition utils : ResponseUtils := {|
  get_stream_message_from_openai_answer := delta_text;
  get_message_from_openai_answer := field "content";
  get_text_from_openai_answer := field "text";
  get_image_from_openai_b64 := field "b64_json";
  get_image_from_openai_url := field "url";
  get_audio_text_from_openai_answer := field "text"
|}.

(** One token per character of a string, none for anything else. *)
Definition tokenizer : Tokenizer := {|
  count_tokens := fun v => match v with
                           | VStr s => Z.of_nat (String.length s)
                           | _ => 0%Z
                           end
|}.

Definition digit_of (c : ascii) : option Z :=
  let n := Z.of_N (N_of_ascii c) in
  if ((48 <=? n) && (n <=? 57))%Z then Some (n - 48)%Z else None.

Fixpoint digits (s : string) (acc : Z) : option Z :=
  match s with
  | EmptyString => Some acc
  | String c s' =>
    match digit_of c with
    | Some d => digits s' (10 * acc + d)%Z
    | None => None
    end
  end.

(** Plain decimal numerals only. *)
Definition parse_int (s : string) : Res Z :=
  match s with
  | EmptyString => Raise (ValueError "invalid literal for int()")
  | _ => match digits s 0%Z with
         | Some z => Ok z
         | None => Raise (ValueError "invalid literal for int()")
         end
  end.

Definition show (v : PyVal) : string :=
  match v with
  | VStr s => s
  | VNone => "None"
  | VBool true => "True"
  | VBool false => "False"
  | _ => "<object>"
  end.

(** Base64 is kept as the identity on bytes here: the sample payloads are
    read as already decoded. *)
Definition runtime : Runtime := {|
  py_str := show;
  py_int := parse_int;
  abspath := fun p => "/cwd/" +:+ p;
  b64decode := fun v => match v with
                        | VBytes bs => Ok bs
                        | VStr s => Ok (list_byte_of_string s)
                        | _ => Raise (TypeError "a bytes-like object is required")
                        end;
  b64encode := fun bs => bs;
  json_loads := fun v => Ok v;
  json_dumps := fun v => Ok (show v);
  time_at := fun n => (1700000000 + Z.of_nat n)%Z
|}.

(** A picture is its size and nothing else; its file is two bytes, the
  width and the height (at most 255 each). *)
Definition pillow : Pillow := {|
PILImage := (N * N)%type;
pil_open := fun bs =>
  match bs with
  | [w; h] => Ok (Byte.to_N w, Byte.to_N h)
  | _ => Raise (OtherError "UnidentifiedImageError" "cannot identify image file")
  end;
pil_size := fun img => [Z.of_N (fst img); Z.of_N (snd img)];
pil_resize := fun _ new_size =>
  match new_size with
  | [w; h] => if ((0 <? w) && (0 <? h))%Z then Ok (Z.to_N w, Z.to_N h)
              else Raise (ValueError "height and width must be > 0")
  | _ => Raise (ValueError "size must be a tuple of two integers")
  end;
pil_save_jpeg := fun img =>
  match Byte.of_N (fst img), Byte.of_N (snd img) with
  | Some bw, Some bh => Ok [bw; bh]
  | _, _ => Raise (OtherError "OSError" "encoder error")
  end
|}.

Definition backend : Backend := {|
  openai_call := fun _ _ _ => raise (OpenAIError "no network");
  cls_llm := fun _ => None;
  wrap_error := fun msg => CacheError msg
|}.

(** A core whose cache always replays one stale single-item moderation
    result, and whose fresh calls return one result per input. *)
Definition one_result : PyVal := VDict [("flagged", VBool false)].

Definition fresh_results (kwargs : Kwargs) : PyVal :=
  match kwargs !! "input" with
  | Some (VList xs) => VList (map (fun _ => one_result) xs)
  | _ => VList [one_result]
  end.

Definition stale_core : CacheCore := {|
  adapt_impl := fun _ _ _ _ kwargs =>
    match kwargs !! "cache_skip" with
    | Some (VBool true) => alloc (OValue (VDict [("results", fresh_results kwargs)]))
    | _ => alloc (OValue (VDict [("results", VList [one_result])]))
    end;
  fill_base_args := fun kwargs => kwargs;
  enable_token_counter := fun _ => true
|}.

(** A core behind which every answer, cached or live, has one result. *)
Definition stubborn_core : CacheCore := {|
  adapt_impl := fun _ _ _ _ _ =>
    alloc (OValue (VDict [("results", VList [one_result])]));
  fill_base_args := fun kwargs => kwargs;
  enable_token_counter := fun _ => false
|}.

Definition empty_world : World := mkWorld ∅ [] [] ∅ [] 0.

(** Three chunks of a stream, and a world holding their iterator at
    reference 1. *)
Definition chunks : list PyVal :=
  [VDict [("role", VStr "assistant")];
   VDict [("content", VStr "Hel")];
   VDict [("content", VStr "lo")]].

Definition stream_world : World :=
set_obj 1%positive (OStream chunks) empty_world.

(** A live response with the fields the sample readers look for, at
  reference 1. *)
Definition live_response : PyVal :=
VDict [("content", VStr "hi"); ("text", VStr "hi");
       ("url", VBytes [x02; x03]); ("b64_json", VStr "AgM=")].

Definition response_world : World :=
set_obj 1%positive (OValue live_response) empty_world.

(** A moderation request for a batch of three inputs. *)
Definition batch_kwargs : Kwargs :=
{[ "input" := VList [VStr "a"; VStr "b"; VStr "c"] ]}.

(** A chat request with one message. *)
Definition hi_message : list (string * PyVal) :=
[("role", VStr "user"); ("content", VStr "hi")].


(** A stream whose second chunk carries a number where its text should
    be, at reference 1. *)
Definition broken_chunks : list PyVal :=
  [VDict [("content", VStr "Hel")];
   VDict [("content", VInt 7)];
   VDict [("content", VStr "lo")]].

Definition broken_stream_world : World :=
  set_obj 1%positive (OStream broken_chunks) empty_world.

(** A storage hook behind which the cache is out of reach. *)
Definition failing_store (a : Answer) : Py unit :=
  raise (CacheError "cache unavailable").

(** [str] with integers in decimal. *)
Definition show_decimal (v : PyVal) : string :=
  match v with
  | VInt z => NilZero.string_of_int (Z.to_int z)
  | other => show other
  end.

(** A clock that stands still, as within one second. *)
Definition still_runtime : Runtime := {|
  py_str := show_decimal;
  py_int := parse_int;
  abspath := fun p => "/cwd/" +:+ p;
  b64decode := fun v => match v with
                        | VBytes bs => Ok bs
                        | VStr s => Ok (list_byte_of_string s)
                        | _ => Raise (TypeError "a bytes-like object is required")
                        end;
  b64encode := fun bs => bs;
  json_loads := fun v => Ok v;
  json_dumps := fun v => Ok (show_decimal v);
  time_at := fun _ => 1700000000%Z
|}.

(** A core that cannot reach the backend at all. *)
Definition broken_core : CacheCore := {|
  adapt_impl := fun _ _ _ _ _ => raise (CacheError "no backend");
  fill_base_args := fun kwargs => kwargs;
  enable_token_counter := fun _ => false
|}.

(** A core whose cache replays an answer that is no moderation result. *)
Definition garbled_core : CacheCore := {|
  adapt_impl := fun _ _ _ _ _ => alloc (OValue (VDict [("id", VStr "modr-1")]));
  fill_base_args := fun kwargs => kwargs;
  enable_token_counter := fun _ => false
|}.

(** A live result that is a bare text, at reference 1. *)
Definition text_world : World :=
  set_obj 1%positive (OValue (VStr "flagged")) empty_world.

(** A live image response whose payload is the two-byte picture of size
    2 by 3, as text, at reference 1. *)
Definition tiny_payload : string :=
  String "002"%char (String "003"%char EmptyString).

Definition tiny_image_world : World :=
  set_obj 1%positive (OValue (VDict [("b64_json", VStr tiny_payload)]))
          empty_world.
End Sample.

(** ** Vocabulary of the properties *)

(** The text of a whole stream: every delta, in order. *)
Definition join_text (deltas : list string) : string :=
  foldr String.append "" deltas.

Definition resumable (st : GenStatus) : Prop :=
  st = GEN_CREATED \/ st = GEN_SUSPENDED.

(** The generator [g] stands between two items: it wraps the iterator
    [src], which still holds [cs], and has accumulated [acc]. *)
Definition streaming (w : World) (src g : loc) (cs : list PyVal)
    (acc : string) : Prop :=
  src <> g /\
  heap w !! src = Some (OStream cs) /\
  exists st, resumable st /\ heap w !! g = Some (OGen (mkGen src acc st)).

(** The generator [g] has finished, with [acc] accumulated. *)
Definition closed (w : World) (src g : loc) (acc : string) : Prop :=
  heap w !! g = Some (OGen (mkGen src acc GEN_CLOSED)).

(** A callback that, whenever it returns, returns the very object it was
    given. *)
Definition returns_live_response (callback : UpdateCacheCallback) : Prop :=
  forall llm_data update_cache_func w r w',
    callback llm_data update_cache_func w = (Ok r, w') -> r = llm_data.


(** The prompt-token formula in the words of the specification: per
    message a fixed overhead of 3, the token count of every field value,
    and 1 more when a ["name"] field is present; plus 3 for reply
    priming. *)
Definition sum_Z (zs : list Z) : Z := foldr Z.add 0%Z zs.




(** What Pillow promises of its own operations: a resized image has the
    size asked for, and a saved image opens again with the size it had. *)
Definition pillow_contract `{Pillow} : Prop :=
  (forall img new_size resized,
     pil_resize img new_size = Ok resized -> pil_size resized = new_size) /\
  (forall img out,
     pil_save_jpeg img = Ok out ->
     exists decoded, pil_open out = Ok decoded /\ pil_size decoded = pil_size img).

Definition image_envelope (created : Z) (field : string * PyVal) : PyVal :=
  VDict [("gptcache", VBool true);
         ("created", VInt created);
         ("data", VList [VDict [field]])].

(** The builder hands out the bytes [payload]: base64-encoded in the
    envelope for ["b64_json"], with no file written; in a file whose path is
    the envelope's [url] for ["url"]. *)
Definition delivers `{Runtime} `{Pillow} (image_data size : PyVal) (w : World)
    (payload : list byte) : Prop :=
  (exists created w',
     _construct_image_create_resp_from_cache image_data (VStr "b64_json") size w
     = (Ok (image_envelope created
              ("b64_json", VStr (string_of_list_byte (b64encode payload)))), w') /\
     files w' = files w) /\
  (exists path created w',
     _construct_image_create_resp_from_cache image_data (VStr "url") size w
     = (Ok (image_envelope created ("url", VStr path)), w') /\
     files w' = <[path := payload]> (files w)).

(** The call through [adapt] that [Moderation.create] makes, as a function
    of the keyword arguments. *)
Definition moderation_adapt `{Runtime} `{Backend} `{CacheCore}
    : list PyVal -> Kwargs -> Py loc :=
  adapt Moderation._llm_handler Moderation._cache_data_convert
        Moderation._update_cache_callback.

(** How many items of a message are keyed ["name"]. *)
Fixpoint name_count (items : list (string * PyVal)) : Z :=
  match items with
  | [] => 0
  | (key, _) :: rest =>
    ((if String.eqb key "name" then 1 else 0) + name_count rest)%Z
  end.


(** A callback that, when it returns, has at most handed one answer to the
    storage hook and has changed nothing else. *)
Definition stores_at_most_once (callback : UpdateCacheCallback) : Prop :=
  forall llm_data w r w',
    callback llm_data cache_store w = (Ok r, w') ->
    w' = w \/ exists a, w' = set_stored (stored w ++ [a]) w.

(** The call an [_llm_handler] guards: the class's [llm] when one is set,
    the backend's own entry point otherwise. *)
Definition live_call `{Backend} (ep : Endpoint) : LlmHandler :=
  match cls_llm ep with
  | None => openai_call ep
  | Some llm => llm
  end.

(** A handler that lets no [OpenAIError] of the guarded call through, and
    hands on every other outcome of it as it is. *)
Definition normalises `{Backend} (guarded handler : LlmHandler) : Prop :=
  forall llm_args llm_kwargs w,
    match guarded llm_args llm_kwargs w with
    | (Raise (OpenAIError msg), w') =>
      handler llm_args llm_kwargs w = (Raise (wrap_error msg), w')
    | outcome => handler llm_args llm_kwargs w = outcome
    end.

(** The stored payload [image_data] decodes, opens and, for the requested
    [size], comes out as the bytes [buffered]: everything the image builder
    does before it looks at [response_format]. *)
Definition prepares `{Runtime} `{Pillow} (image_data size : PyVal)
    (buffered : list byte) : Prop :=
  exists img_bytes img pieces new_size,
    b64decode image_data = Ok img_bytes /\
    pil_open img_bytes = Ok img /\
    py_split_x size = Ok pieces /\
    map_res py_int pieces = Ok new_size /\
    image_payload img_bytes img new_size = Ok buffered.

(** What one message adds to the prompt-token count as the loops compute
    it: 3, the tokens of every value, and 1 for every item keyed ["name"]. *)
Definition message_cost `{Tokenizer} (message : list (string * PyVal)) : Z :=
  (3 + sum_Z (map (fun kv => count_tokens (snd kv)) message)
     + name_count message)%Z.

(** The six live-call handlers of the module. *)
Definition llm_handlers `{Backend} : list LlmHandler :=
  [ChatCompletion._llm_handler; Completion._llm_handler;
   Audio.llm_handler EP_Transcribe; Audio.llm_handler EP_Translate;
   Image._llm_handler; Moderation._llm_handler].



(** * Properties *)

(** ** Strings *)

Lemma append_assoc (a b c : string) : (a +:+ b) +:+ c = a +:+ (b +:+ c).
Proof.
  induction a as [|x a IH]; [reflexivity|].
  change (String x ((a +:+ b) +:+ c) = String x (a +:+ (b +:+ c))).
  f_equal. exact IH.
Qed.

Lemma append_empty_r (a : string) : a +:+ "" = a.
Proof.
  induction a as [|x a IH]; [reflexivity|].
  change (String x (a +:+ "") = String x a). f_equal. exact IH.
Qed.

(** ** The monad *)

Lemma bind_ok {A B} (m : Py A) (k : A -> Py B) w a w' :
  m w = (Ok a, w') -> bind m k w = k a w'.
Proof. intros H. unfold bind. now rewrite H. Qed.

(** ** The streaming extractor *)

Section StreamingTheory.
Context `{RU : ResponseUtils}.

Import ChatCompletion.

Lemma next_yields w src g c rest acc s d :
  streaming w src g (c :: rest) acc ->
  get_stream_message_from_openai_answer c = Ok s ->
  exists w',
    py_next cache_store (S (S d)) g w = (Ok (Yielded c), w') /\
    streaming w' src g rest (acc +:+ s) /\
    stored w' = stored w.
Proof.
  intros (Hne & Hsrc & st & Hst & Hg) Hs.
  eexists. split; [|split].
  - cbn [py_next]. rewrite Hg. cbn [gen_status gen_it total_answer].
    assert (Hin : heap (set_obj g (OGen (mkGen src acc GEN_RUNNING)) w) !! src
                  = Some (OStream (c :: rest))).
    { cbn. rewrite lookup_insert_ne by congruence. exact Hsrc. }
    destruct Hst as [-> | ->]; cbn [py_next]; rewrite Hin, Hs; reflexivity.
  - repeat split.
    + exact Hne.
    + cbn. rewrite lookup_insert_ne by congruence.
      now rewrite lookup_insert_eq.
    + exists GEN_SUSPENDED. split; [now right|].
      cbn. now rewrite lookup_insert_eq.
  - reflexivity.
Qed.

Lemma next_ends w src g acc d :
  streaming w src g [] acc ->
  exists w',
    py_next cache_store (S (S d)) g w = (Ok Exhausted, w') /\
    closed w' src g acc /\
    stored w' = stored w ++ [mkAnswer (VStr acc) STR].
Proof.
  intros (Hne & Hsrc & st & Hst & Hg).
  eexists. split; [|split].
  - cbn [py_next]. rewrite Hg. cbn [gen_status gen_it total_answer].
    assert (Hin : heap (set_obj g (OGen (mkGen src acc GEN_RUNNING)) w) !! src
                  = Some (OStream [])).
    { cbn. rewrite lookup_insert_ne by congruence. exact Hsrc. }
    destruct Hst as [-> | ->]; cbn [py_next]; rewrite Hin; reflexivity.
  - unfold closed. cbn. now rewrite lookup_insert_eq.
  - reflexivity.
Qed.

Lemma next_closed update_cache_func w src g acc d :
  closed w src g acc ->
  py_next update_cache_func (S d) g w = (Ok Exhausted, w).
Proof. intros Hg. cbn [py_next]. now rewrite Hg. Qed.

Lemma pull_closed update_cache_func w src g acc d k :
  closed w src g acc ->
  pull update_cache_func (S d) (S k) g w = (Ok ([], true), w).
Proof.
  intros Hg. cbn [pull].
  now rewrite (bind_ok _ _ _ _ _ (next_closed update_cache_func _ _ _ _ d Hg)).
Qed.

(** Asking for as many items as a prefix of what remains yields that
    prefix, in order, and stores nothing. *)
Lemma pull_prefix d post : forall pre ds w src g acc,
  streaming w src g (pre ++ post) acc ->
  Forall2 (fun c s => get_stream_message_from_openai_answer c = Ok s) pre ds ->
  exists w',
    pull cache_store (S (S d)) (length pre) g w = (Ok (pre, false), w') /\
    streaming w' src g post (acc +:+ join_text ds) /\
    stored w' = stored w.
Proof.
  intros pre ds w src g acc Hinv Hds. revert w acc Hinv.
  induction Hds as [|c s pre ds Hs Hds IH]; intros w acc Hinv.
  - exists w. cbn. rewrite append_empty_r. auto.
  - destruct (next_yields _ _ _ _ _ _ _ d Hinv Hs) as (w1 & Hstep & Hinv1 & Hst1).
    destruct (IH w1 (acc +:+ s) Hinv1) as (w2 & Hrest & Hinv2 & Hst2).
    exists w2. split; [|split].
    + cbn [length pull]. rewrite (bind_ok _ _ _ _ _ Hstep).
      rewrite (bind_ok _ _ _ _ _ Hrest). reflexivity.
    + rewrite append_assoc in Hinv2. exact Hinv2.
    + congruence.
Qed.

(** Closing a generator that stands between two items ends it without
    running the rest of its body. *)
Lemma close_suspended w src g cs acc :
  streaming w src g cs acc ->
  exists w',
    py_close g w = (Ok tt, w') /\
    closed w' src g acc /\
    stored w' = stored w.
Proof.
  intros (Hne & Hsrc & st & Hst & Hg).
  eexists. split; [|split].
  - unfold py_close. rewrite Hg. destruct Hst as [-> | ->]; reflexivity.
  - unfold closed. cbn. now rewrite lookup_insert_eq.
  - reflexivity.
Qed.

(** Asking for more than remain yields them all, then stores once. *)
Lemma pull_all d extra w src g cs ds acc :
  streaming w src g cs acc ->
  Forall2 (fun c s => get_stream_message_from_openai_answer c = Ok s) cs ds ->
  exists w',
    pull cache_store (S (S d)) (S (length cs + extra)) g w = (Ok (cs, true), w') /\
    closed w' src g (acc +:+ join_text ds) /\
    stored w' = stored w ++ [mkAnswer (VStr (acc +:+ join_text ds)) STR].
Proof.
  intros Hinv Hds. revert w acc Hinv.
  induction Hds as [|c s cs ds Hs Hds IH]; intros w acc Hinv.
  - destruct (next_ends _ _ _ _ d Hinv) as (w1 & Hstep & Hcl & Hst).
    exists w1. cbn [pull length join_text foldr]. rewrite append_empty_r.
    now rewrite (bind_ok _ _ _ _ _ Hstep).
  - destruct (next_yields _ _ _ _ _ _ _ d Hinv Hs) as (w1 & Hstep & Hinv1 & Hst1).
    destruct (IH w1 (acc +:+ s) Hinv1) as (w2 & Hrest & Hcl & Hst2).
    exists w2. split; [|split].
    + cbn [length Nat.add]. cbn [pull]. rewrite (bind_ok _ _ _ _ _ Hstep).
      rewrite (bind_ok _ _ _ _ _ Hrest). reflexivity.
    + rewrite append_assoc in Hcl. exact Hcl.
    + rewrite append_assoc in Hst2. rewrite Hst2, Hst1. reflexivity.
Qed.

(** On an iterator the callback builds a generator at a reference of
    its own and does nothing else. *)
Lemma callback_wraps update_cache_func w src cs :
  heap w !! src = Some (OStream cs) ->
  exists g w',
    _update_cache_callback src update_cache_func w = (Ok g, w') /\
    streaming w' src g cs "" /\
    g <> src /\
    stored w' = stored w.
Proof.
  intros Hsrc.
  assert (Hfresh : fresh (dom (heap w)) <> src).
  { intros Heq. pose proof (is_fresh (dom (heap w))) as Hnot.
    apply Hnot. rewrite Heq. apply elem_of_dom. eauto. }
  exists (fresh (dom (heap w))). eexists. split; [|split; [|split]].
  - unfold _update_cache_callback, isinstance_Iterator, bind. rewrite Hsrc.
    cbn. reflexivity.
  - repeat split.
    + congruence.
    + cbn. rewrite lookup_insert_ne by congruence. exact Hsrc.
    + exists GEN_CREATED. split; [now left|]. cbn. now rewrite lookup_insert_eq.
  - exact Hfresh.
  - reflexivity.
Qed.
End StreamingTheory.

(** C1.  On an iterator of chunks [cs] the chat callback returns a lazy
    sequence; a consumer asking for exactly [length cs] items receives [cs]
    itself, in order, and nothing has been stored by then; a consumer that
    pulls to exhaustion receives [cs] and is told the sequence ended, and the
    storage hook has then been called exactly once, with the TEXT ([STR])
    answer made of every chunk's delta text in order; asking again afterwards
    stores nothing more. *)
Theorem streaming_extractor_forwards_then_stores `{RU : ResponseUtils}
    (w : World) (src : loc) (cs : list PyVal) (ds : list string)
    (d extra : nat) :
  heap w !! src = Some (OStream cs) ->
  Forall2 (fun c s => get_stream_message_from_openai_answer c = Ok s) cs ds ->
  exists g w0 w1 w2,
    ChatCompletion._update_cache_callback src cache_store w = (Ok g, w0) /\
    stored w0 = stored w /\
    ChatCompletion.pull cache_store (S (S d)) (length cs) g w0
      = (Ok (cs, false), w1) /\
    stored w1 = stored w /\
    ChatCompletion.pull cache_store (S (S d)) (S (length cs + extra)) g w0
      = (Ok (cs, true), w2) /\
    stored w2 = stored w ++ [mkAnswer (VStr (join_text ds)) STR] /\
    ChatCompletion.py_next cache_store (S (S d)) g w2 = (Ok Exhausted, w2).
Proof.
  intros Hsrc Hds.
  destruct (callback_wraps cache_store w src cs Hsrc)
    as (g & w0 & Hcb & Hinv & _ & Hst0).
  assert (Hinv' : streaming w0 src g (cs ++ []) "") by now rewrite app_nil_r.
  destruct (pull_prefix d [] cs ds w0 src g "" Hinv' Hds)
    as (w1 & Hpull & _ & Hst1).
  destruct (pull_all d extra w0 src g cs ds "" Hinv Hds)
    as (w2 & Hall & Hcl & Hst2).
  exists g, w0, w1, w2. repeat split; try assumption.
  - congruence.
  - rewrite Hst2, Hst0. reflexivity.
  - exact (next_closed cache_store w2 src g _ (S d) Hcl).
Qed.

Lemma streaming_extractor_forwards_then_stores_witness :
  exists g w0 w1 w2,
    @ChatCompletion._update_cache_callback Sample.utils 1%positive cache_store
      Sample.stream_world = (Ok g, w0) /\
    stored w0 = [] /\
    @ChatCompletion.pull Sample.utils cache_store 2 3 g w0
      = (Ok (Sample.chunks, false), w1) /\
    stored w1 = [] /\
    @ChatCompletion.pull Sample.utils cache_store 2 4 g w0
      = (Ok (Sample.chunks, true), w2) /\
    stored w2 = [mkAnswer (VStr "Hello") STR] /\
    @ChatCompletion.py_next Sample.utils cache_store 2 g w2 = (Ok Exhausted, w2).
Proof.
  apply (@streaming_extractor_forwards_then_stores Sample.utils
           Sample.stream_world 1%positive Sample.chunks [""; "Hel"; "lo"] 0 0).
  - reflexivity.
  - repeat constructor.
Defined.

(** C2.  A consumer that takes only the first [k] of [n] chunks, [k < n],
    and then abandons the sequence: the storage hook has not been called
    when it stops, is not called when the generator is closed, and is not
    called by any later request on the closed generator. *)
Theorem abandoned_stream_stores_nothing `{RU : ResponseUtils}
    (w : World) (src : loc) (cs : list PyVal) (ds : list string)
    (d k : nat) :
  heap w !! src = Some (OStream cs) ->
  Forall2 (fun c s => get_stream_message_from_openai_answer c = Ok s)
          (take k cs) ds ->
  k < length cs ->
  exists g w0 w1 w2,
    ChatCompletion._update_cache_callback src cache_store w = (Ok g, w0) /\
    ChatCompletion.pull cache_store (S (S d)) k g w0
      = (Ok (take k cs, false), w1) /\
    stored w1 = stored w /\
    ChatCompletion.py_close g w1 = (Ok tt, w2) /\
    stored w2 = stored w /\
    forall m, ChatCompletion.pull cache_store (S (S d)) (S m) g w2
              = (Ok ([], true), w2).
Proof.
  intros Hsrc Hds Hk.
  destruct (callback_wraps cache_store w src cs Hsrc)
    as (g & w0 & Hcb & Hinv & _ & Hst0).
  rewrite <- (take_drop k cs) in Hinv.
  destruct (pull_prefix d (drop k cs) (take k cs) ds w0 src g "" Hinv Hds)
    as (w1 & Hpull & Hinv1 & Hst1).
  rewrite length_take, Nat.min_l in Hpull by lia.
  destruct (close_suspended w1 src g _ _ Hinv1) as (w2 & Hclose & Hcl & Hst2).
  exists g, w0, w1, w2. repeat split; try assumption.
  - congruence.
  - congruence.
  - intros m. exact (pull_closed cache_store w2 src g _ (S d) m Hcl).
Qed.

Lemma abandoned_stream_stores_nothing_witness :
  exists g w0 w1 w2,
    @ChatCompletion._update_cache_callback Sample.utils 1%positive cache_store
      Sample.stream_world = (Ok g, w0) /\
    @ChatCompletion.pull Sample.utils cache_store 2 2 g w0
      = (Ok (take 2 Sample.chunks, false), w1) /\
    stored w1 = [] /\
    ChatCompletion.py_close g w1 = (Ok tt, w2) /\
    stored w2 = [] /\
    forall m, @ChatCompletion.pull Sample.utils cache_store 2 (S m) g w2
              = (Ok ([], true), w2).
Proof.
  apply (@abandoned_stream_stores_nothing Sample.utils
           Sample.stream_world 1%positive Sample.chunks [""; "Hel"] 0 2).
  - reflexivity.
  - repeat constructor.
  - cbn. lia.
Defined.

(** ** The callbacks of the non-streaming paths *)

(** Takes a run of a callback apart, one bind at a time. *)
Ltac run_callback H :=
  unfold bind, ret, raise, lift, read_value in H;
  repeat match type of H with
         | context [match ?x with _ => _ end] =>
           destruct x eqn:?; try discriminate H
         end;
  try (inversion H; subst; clear H).

Section CallbackTheory.
Context `{RU : ResponseUtils} `{RT : Runtime}.

Lemma completion_returns :
  returns_live_response Completion._update_cache_callback.
Proof.
  intros l f w r w' H. unfold Completion._update_cache_callback in H.
  run_callback H. reflexivity.
Qed.

Lemma audio_returns : returns_live_response Audio.update_cache_callback.
Proof.
  intros l f w r w' H. unfold Audio.update_cache_callback in H.
  run_callback H. reflexivity.
Qed.

Lemma moderation_returns :
  returns_live_response Moderation._update_cache_callback.
Proof.
  intros l f w r w' H. unfold Moderation._update_cache_callback in H.
  run_callback H. reflexivity.
Qed.

Lemma image_returns response_format :
  returns_live_response (Image.update_cache_callback response_format).
Proof.
  intros l f w r w' H. unfold Image.update_cache_callback in H.
  unfold bind at 1 in H.
  match type of H with
  | context [match ?x with _ => _ end] => destruct x as [[[]|e] w1] eqn:E
  end; [|discriminate H].
  unfold ret in H. now inversion H.
Qed.

Lemma chat_plain_returns llm_data update_cache_func w r w' :
  isinstance_Iterator llm_data w = (Ok false, w) ->
  ChatCompletion._update_cache_callback llm_data update_cache_func w = (Ok r, w') ->
  r = llm_data.
Proof.
  intros Hit H. unfold ChatCompletion._update_cache_callback in H.
  rewrite (bind_ok _ _ _ _ _ Hit) in H. cbn [negb] in H.
  run_callback H. reflexivity.
Qed.

Lemma chat_stream_wraps llm_data update_cache_func w :
  isinstance_Iterator llm_data w = (Ok true, w) ->
  exists g w',
    ChatCompletion._update_cache_callback llm_data update_cache_func w
      = (Ok g, w') /\
    g <> llm_data /\
    heap w' !! g = Some (OGen (mkGen llm_data "" GEN_CREATED)) /\
    heap w' !! llm_data = heap w !! llm_data.
Proof.
  intros Hit.
  assert (Hin : is_Some (heap w !! llm_data)).
  { unfold isinstance_Iterator in Hit.
    destruct (heap w !! llm_data) as [o|]; [eauto|]. discriminate Hit. }
  assert (Hfresh : fresh (dom (heap w)) <> llm_data).
  { intros Heq. apply (is_fresh (dom (heap w))).
    rewrite Heq. now apply elem_of_dom. }
  exists (fresh (dom (heap w))). eexists. split; [|split; [|split]].
  - unfold ChatCompletion._update_cache_callback.
    rewrite (bind_ok _ _ _ _ _ Hit). reflexivity.
  - exact Hfresh.
  - cbn. now rewrite lookup_insert_eq.
  - cbn. now rewrite lookup_insert_ne.
Qed.

(** With the recording hook and a readable response, each callback stores
    one answer and hands back its argument, the object store untouched. *)
Lemma completion_stores l v text w :
  heap w !! l = Some (OValue v) ->
  get_text_from_openai_answer v = Ok text ->
  Completion._update_cache_callback l cache_store w
    = (Ok l, set_stored (stored w ++ [mkAnswer text STR]) w).
Proof.
  intros Hl Hx. unfold Completion._update_cache_callback, bind, read_value, lift.
  now rewrite Hl, Hx.
Qed.

Lemma audio_stores l v text w :
  heap w !! l = Some (OValue v) ->
  get_audio_text_from_openai_answer v = Ok text ->
  Audio.update_cache_callback l cache_store w
    = (Ok l, set_stored (stored w ++ [mkAnswer text STR]) w).
Proof.
  intros Hl Hx. unfold Audio.update_cache_callback, bind, read_value, lift.
  now rewrite Hl, Hx.
Qed.

Lemma moderation_stores l v text w :
  heap w !! l = Some (OValue v) ->
  json_dumps v = Ok text ->
  Moderation._update_cache_callback l cache_store w
    = (Ok l, set_stored (stored w ++ [mkAnswer (VStr text) STR]) w).
Proof.
  intros Hl Hx. unfold Moderation._update_cache_callback, bind, read_value, lift.
  now rewrite Hl, Hx.
Qed.

Lemma chat_plain_stores l v message w :
  heap w !! l = Some (OValue v) ->
  get_message_from_openai_answer v = Ok message ->
  ChatCompletion._update_cache_callback l cache_store w
    = (Ok l, set_stored (stored w ++ [mkAnswer message STR]) w).
Proof.
  intros Hl Hx.
  unfold ChatCompletion._update_cache_callback, bind, isinstance_Iterator,
    read_value, lift.
  rewrite Hl. cbn. now rewrite Hl, Hx.
Qed.

Lemma image_b64_str_stores l v s bs w :
  heap w !! l = Some (OValue v) ->
  get_image_from_openai_b64 v = Ok (VStr s) ->
  encode_ascii s = Ok bs ->
  Image.update_cache_callback (VStr "b64_json") l cache_store w
    = (Ok l, set_stored (stored w ++ [mkAnswer (VBytes bs) IMAGE_BASE64]) w).
Proof.
  intros Hl Hx He. unfold Image.update_cache_callback, bind, read_value, lift.
  cbn [py_eq_str String.eqb Ascii.eqb Bool.eqb]. cbn. now rewrite Hl, Hx, He.
Qed.

Lemma image_b64_bytes_stores l v bs w :
  heap w !! l = Some (OValue v) ->
  get_image_from_openai_b64 v = Ok (VBytes bs) ->
  Image.update_cache_callback (VStr "b64_json") l cache_store w
    = (Ok l, set_stored (stored w ++ [mkAnswer (VBytes bs) IMAGE_BASE64]) w).
Proof.
  intros Hl Hx. unfold Image.update_cache_callback, bind, read_value, lift.
  cbn. now rewrite Hl, Hx.
Qed.

Lemma image_url_stores l v img w :
  heap w !! l = Some (OValue v) ->
  get_image_from_openai_url v = Ok img ->
  Image.update_cache_callback (VStr "url") l cache_store w
    = (Ok l, set_stored (stored w ++ [mkAnswer img IMAGE_URL]) w).
Proof.
  intros Hl Hx. unfold Image.update_cache_callback, bind, read_value, lift.
  cbn. now rewrite Hl, Hx.
Qed.

Lemma image_other_stores_nothing response_format l update_cache_func w :
  py_eq_str response_format "b64_json" = false ->
  py_eq_str response_format "url" = false ->
  Image.update_cache_callback response_format l update_cache_func w = (Ok l, w).
Proof.
  intros H1 H2. unfold Image.update_cache_callback. now rewrite H1, H2.
Qed.
End CallbackTheory.

(** C9, counterexample.  On the chunk iterator of the sample world the
    chat callback returns a generator at a reference of its own, not the
    iterator it was given. *)
Lemma chat_streaming_callback_returns_new_object :
  ~ returns_live_response (@ChatCompletion._update_cache_callback Sample.utils).
Proof.
  intros H.
  destruct (@callback_wraps Sample.utils cache_store Sample.stream_world
              1%positive Sample.chunks eq_refl)
    as (g & w' & Hcb & _ & Hne & _).
  apply Hne. exact (H _ _ _ _ _ Hcb).
Qed.

(** C9, amended.  The completion, audio, image and moderation callbacks,
    and the chat callback on a response that is not an iterator, return
    the very object they were given whenever they return, and with the
    recording hook they do return it, the object store untouched, whenever
    the response can be read; on an iterator the chat callback returns a
    new generator object over that iterator, distinct from it, and leaves
    the iterator as it was. *)
Theorem callbacks_return_live_response `{RU : ResponseUtils} `{RT : Runtime} :
  returns_live_response Completion._update_cache_callback /\
  returns_live_response Audio.update_cache_callback /\
  (forall response_format,
     returns_live_response (Image.update_cache_callback response_format)) /\
  returns_live_response Moderation._update_cache_callback /\
  (forall llm_data update_cache_func w r w',
     isinstance_Iterator llm_data w = (Ok false, w) ->
     ChatCompletion._update_cache_callback llm_data update_cache_func w
       = (Ok r, w') ->
     r = llm_data) /\
  (forall llm_data update_cache_func w,
     isinstance_Iterator llm_data w = (Ok true, w) ->
     exists g w',
       ChatCompletion._update_cache_callback llm_data update_cache_func w
         = (Ok g, w') /\
       g <> llm_data /\
       heap w' !! g = Some (OGen (mkGen llm_data "" GEN_CREATED)) /\
       heap w' !! llm_data = heap w !! llm_data) /\
  (forall l v w, heap w !! l = Some (OValue v) ->
     (forall text, get_text_from_openai_answer v = Ok text ->
        Completion._update_cache_callback l cache_store w
          = (Ok l, set_stored (stored w ++ [mkAnswer text STR]) w)) /\
     (forall text, get_audio_text_from_openai_answer v = Ok text ->
        Audio.update_cache_callback l cache_store w
          = (Ok l, set_stored (stored w ++ [mkAnswer text STR]) w)) /\
     (forall text, json_dumps v = Ok text ->
        Moderation._update_cache_callback l cache_store w
          = (Ok l, set_stored (stored w ++ [mkAnswer (VStr text) STR]) w)) /\
     (forall message, get_message_from_openai_answer v = Ok message ->
        ChatCompletion._update_cache_callback l cache_store w
          = (Ok l, set_stored (stored w ++ [mkAnswer message STR]) w)) /\
     (forall img, get_image_from_openai_url v = Ok img ->
        Image.update_cache_callback (VStr "url") l cache_store w
          = (Ok l, set_stored (stored w ++ [mkAnswer img IMAGE_URL]) w)) /\
     (forall bs, get_image_from_openai_b64 v = Ok (VBytes bs) ->
        Image.update_cache_callback (VStr "b64_json") l cache_store w
          = (Ok l, set_stored (stored w ++ [mkAnswer (VBytes bs) IMAGE_BASE64]) w))).
Proof.
  split; [exact completion_returns|].
  split; [exact audio_returns|].
  split; [exact image_returns|].
  split; [exact moderation_returns|].
  split; [exact chat_plain_returns|].
  split; [exact chat_stream_wraps|].
  intros l v w Hl.
  split; [intros; now apply completion_stores with v|].
  split; [intros; now apply audio_stores with v|].
  split; [intros; now apply moderation_stores with v|].
  split; [intros; now apply chat_plain_stores with v|].
  split; [intros; now apply image_url_stores with v|].
  intros; now apply image_b64_bytes_stores with v.
Qed.

Lemma callbacks_return_live_response_witness :
  @Completion._update_cache_callback Sample.utils 1%positive cache_store
    Sample.response_world
  = (Ok 1%positive,
     set_stored [mkAnswer (VStr "hi") STR] Sample.response_world).
Proof.
  destruct (@callbacks_return_live_response Sample.utils Sample.runtime)
    as (_ & _ & _ & _ & _ & _ & H).
  destruct (H 1%positive Sample.live_response Sample.response_world eq_refl)
    as (Hcompletion & _).
  exact (Hcompletion (VStr "hi") eq_refl).
Defined.

(** C3, counterexample.  With [response_format = "url"] the image
    extractor stores its answer under kind [IMAGE_URL], not
    [IMAGE_BASE64]. *)
Lemma image_url_answer_is_not_base64_kind :
  exists w',
    @Image.update_cache_callback Sample.utils (VStr "url") 1%positive
      cache_store Sample.response_world = (Ok 1%positive, w') /\
    exists a, stored w' = [a] /\ answer_type a <> IMAGE_BASE64.
Proof.
  eexists. split; [reflexivity|].
  eexists. split; [reflexivity|]. discriminate.
Qed.

(** C3, amended.  For a readable live image response: with
    [response_format = "b64_json"] the extractor stores the payload read by
    [get_image_from_openai_b64], encoded to ASCII bytes when it is a string,
    under kind [IMAGE_BASE64]; with [response_format = "url"] it stores what
    [get_image_from_openai_url] returns under kind [IMAGE_URL]; with any
    other value it stores nothing.  In each case the live response is
    returned. *)
Theorem image_extractor_stores_by_format `{RU : ResponseUtils}
    (l : loc) (v : PyVal) (w : World) :
  heap w !! l = Some (OValue v) ->
  (forall s bs,
     get_image_from_openai_b64 v = Ok (VStr s) -> encode_ascii s = Ok bs ->
     Image.update_cache_callback (VStr "b64_json") l cache_store w
       = (Ok l, set_stored (stored w ++ [mkAnswer (VBytes bs) IMAGE_BASE64]) w)) /\
  (forall bs,
     get_image_from_openai_b64 v = Ok (VBytes bs) ->
     Image.update_cache_callback (VStr "b64_json") l cache_store w
       = (Ok l, set_stored (stored w ++ [mkAnswer (VBytes bs) IMAGE_BASE64]) w)) /\
  (forall img,
     get_image_from_openai_url v = Ok img ->
     Image.update_cache_callback (VStr "url") l cache_store w
       = (Ok l, set_stored (stored w ++ [mkAnswer img IMAGE_URL]) w)) /\
  (forall response_format,
     py_eq_str response_format "b64_json" = false ->
     py_eq_str response_format "url" = false ->
     Image.update_cache_callback response_format l cache_store w = (Ok l, w)).
Proof.
  intros Hl.
  split; [intros; now apply image_b64_str_stores with v s|].
  split; [intros; now apply image_b64_bytes_stores with v|].
  split; [intros; now apply image_url_stores with v|].
  intros; now apply image_other_stores_nothing.
Qed.

Lemma image_extractor_stores_by_format_witness :
  @Image.update_cache_callback Sample.utils (VStr "b64_json") 1%positive
    cache_store Sample.response_world
  = (Ok 1%positive,
     set_stored [mkAnswer (VBytes [x41; x67; x4d; x3d]) IMAGE_BASE64]
       Sample.response_world).
Proof.
  destruct (@image_extractor_stores_by_format Sample.utils 1%positive
              Sample.live_response Sample.response_world eq_refl)
    as (Hstr & _).
  exact (Hstr "AgM=" [x41; x67; x4d; x3d] eq_refl eq_refl).
Defined.

(** ** Image.create: defaulted keywords *)

Section ImageCreateTheory.
Context `{RU : ResponseUtils} `{RT : Runtime} `{PIL : Pillow}
        `{BE : Backend} `{CC : CacheCore}.

(** What [create] hands to [adapt], with both keywords made explicit. *)
Lemma image_create_unfold args (kwargs : Kwargs) :
  let response_format := default (VStr "url") (kwargs !! "response_format") in
  let size := default (VStr "256x256") (kwargs !! "size") in
  Image.create args kwargs
  = adapt Image._llm_handler
          (Image.cache_data_convert response_format size)
          (Image.update_cache_callback response_format)
          args
          (<["response_format" := response_format]> (<["size" := size]> kwargs)).
Proof.
  cbn zeta. unfold Image.create, Image.kwargs_pop.
  rewrite lookup_delete_ne by discriminate.
  f_equal. apply map_eq. intros key.
  destruct (decide (key = "response_format")) as [->|Hrf].
  { now rewrite !lookup_insert_eq. }
  rewrite !(lookup_insert_ne _ "response_format") by congruence.
  destruct (decide (key = "size")) as [->|Hsz].
  { now rewrite !lookup_insert_eq. }
  rewrite !(lookup_insert_ne _ "size") by congruence.
  rewrite !lookup_delete_ne by congruence. reflexivity.
Qed.

Lemma adapt_records h c u args (kwargs : Kwargs) w r w' :
  adapt h c u args kwargs w = (r, w') ->
  adapt_calls w' = adapt_calls w ++ [kwargs].
Proof.
  unfold adapt. destruct (adapt_impl h c u args kwargs w) as [r0 w0].
  intros H. inversion H. reflexivity.
Qed.
End ImageCreateTheory.

(** C10.  [Image.create] without a [response_format] keyword is the call
    with [response_format="url"], and without a [size] keyword the call with
    [size="256x256"].  In general the builder closure is made with the
    defaulted [response_format] and [size], the extractor closure with the
    defaulted [response_format], and the keyword arguments given to [adapt]
    (from which the live call is made) carry both under their names. *)
Theorem image_create_defaults `{RU : ResponseUtils} `{RT : Runtime}
    `{PIL : Pillow} `{BE : Backend} `{CC : CacheCore}
    (args : list PyVal) (kwargs : Kwargs) :
  (kwargs !! "response_format" = None ->
   Image.create args kwargs
   = Image.create args (<["response_format" := VStr "url"]> kwargs)) /\
  (kwargs !! "size" = None ->
   Image.create args kwargs
   = Image.create args (<["size" := VStr "256x256"]> kwargs)) /\
  (let response_format := default (VStr "url") (kwargs !! "response_format") in
   let size := default (VStr "256x256") (kwargs !! "size") in
   Image.create args kwargs
   = adapt Image._llm_handler
           (Image.cache_data_convert response_format size)
           (Image.update_cache_callback response_format)
           args
           (<["response_format" := response_format]> (<["size" := size]> kwargs))
   /\
   forall w r w',
     Image.create args kwargs w = (r, w') ->
     exists passed,
       adapt_calls w' = adapt_calls w ++ [passed] /\
       passed !! "response_format" = Some response_format /\
       passed !! "size" = Some size).
Proof.
  split; [|split].
  - intros Hnone. rewrite !image_create_unfold. cbn zeta.
    rewrite Hnone, lookup_insert_eq. cbn [default].
    rewrite lookup_insert_ne by discriminate.
    f_equal. apply map_eq. intros key.
    destruct (decide (key = "response_format")) as [->|Hrf].
    { now rewrite !lookup_insert_eq. }
    rewrite !(lookup_insert_ne _ "response_format") by congruence.
    destruct (decide (key = "size")) as [->|Hsz].
    { now rewrite !lookup_insert_eq. }
    rewrite !(lookup_insert_ne _ "size") by congruence.
    now rewrite lookup_insert_ne by congruence.
  - intros Hnone. rewrite !image_create_unfold. cbn zeta.
    rewrite Hnone, lookup_insert_eq. cbn [default].
    rewrite lookup_insert_ne by discriminate.
    f_equal. apply map_eq. intros key.
    destruct (decide (key = "response_format")) as [->|Hrf].
    { now rewrite !lookup_insert_eq. }
    rewrite !(lookup_insert_ne _ "response_format") by congruence.
    destruct (decide (key = "size")) as [->|Hsz].
    { now rewrite !lookup_insert_eq. }
    rewrite !(lookup_insert_ne _ "size") by congruence. reflexivity.
  - cbn zeta. split; [apply image_create_unfold|].
    intros w r w' Hrun. rewrite image_create_unfold in Hrun. cbn zeta in Hrun.
    eexists. split; [exact (adapt_records _ _ _ _ _ _ _ _ Hrun)|].
    split.
    + now rewrite lookup_insert_eq.
    + rewrite lookup_insert_ne by discriminate. now rewrite lookup_insert_eq.
Qed.

Lemma image_create_defaults_witness :
  @Image.create Sample.utils Sample.runtime Sample.pillow Sample.backend
    Sample.stale_core [] ∅
  = @Image.create Sample.utils Sample.runtime Sample.pillow Sample.backend
      Sample.stale_core [] (<["response_format" := VStr "url"]> ∅).
Proof.
  destruct (@image_create_defaults Sample.utils Sample.runtime Sample.pillow
              Sample.backend Sample.stale_core [] ∅) as (H & _).
  apply H. reflexivity.
Defined.

(** ** The image builder *)

Lemma py_eq_str_false (v : PyVal) (s : string) :
  v <> VStr s -> py_eq_str v s = false.
Proof.
  intros Hne. destruct v; try reflexivity. cbn.
  destruct (String.eqb_spec s0 s) as [->|]; [now destruct Hne | reflexivity].
Qed.

Section ImageBuilderTheory.
Context `{RT : Runtime} `{PIL : Pillow}.

(** Up to the choice of output format the builder only computes. *)
Lemma builder_prepared image_data response_format size w
    img_bytes img pieces new_size buffered :
  b64decode image_data = Ok img_bytes ->
  pil_open img_bytes = Ok img ->
  py_split_x size = Ok pieces ->
  map_res py_int pieces = Ok new_size ->
  image_payload img_bytes img new_size = Ok buffered ->
  _construct_image_create_resp_from_cache image_data response_format size w
  = (field <-
       (if py_eq_str response_format "url" then
          now <- time_time ;;
          let target_url := abspath (py_str (VInt now) +:+ ".jpeg") in
          write_file target_url buffered ;;;
          ret ("url", VStr target_url)
        else if py_eq_str response_format "b64_json" then
          ret ("b64_json", VStr (string_of_list_byte (b64encode buffered)))
        else
          raise (invalid_response_format response_format)) ;;
     created <- time_time ;;
     ret (VDict [("gptcache", VBool true);
                 ("created", VInt created);
                 ("data", VList [VDict [field]])])) w.
Proof.
  intros H1 H2 H3 H4 H5.
  unfold _construct_image_create_resp_from_cache.
  unfold bind at 1, lift at 1. rewrite H1.
  unfold bind at 1, lift at 1. rewrite H2.
  unfold bind at 1, lift at 1. rewrite H3.
  unfold bind at 1, lift at 1. rewrite H4.
  unfold bind at 1, lift at 1. rewrite H5.
  reflexivity.
Qed.

(** With a format that is neither of the two, every run of the builder
    ends in an exception and leaves the world as it was. *)
Lemma builder_unsupported_raises image_data response_format size w :
  py_eq_str response_format "url" = false ->
  py_eq_str response_format "b64_json" = false ->
  exists e,
    _construct_image_create_resp_from_cache image_data response_format size w
    = (Raise e, w).
Proof.
  intros Hu Hb. unfold _construct_image_create_resp_from_cache.
  unfold bind, lift, raise. rewrite Hu, Hb.
  destruct (b64decode image_data); [|eauto].
  destruct (pil_open a); [|eauto].
  destruct (py_split_x size); [|eauto].
  destruct (map_res py_int a1); [|eauto].
  destruct (image_payload a a0 a2); eauto.
Qed.
End ImageBuilderTheory.

(** C4.  With a [response_format] other than ["url"] and ["b64_json"] the
    image builder never returns an envelope and leaves the world, its files
    included, as it was; and once the stored payload has been decoded and
    sized, the exception is the invalid-argument error of the code, an
    [AttributeError] whose message spells out the value given. *)
Theorem unsupported_response_format_fails `{RT : Runtime} `{PIL : Pillow}
    (image_data response_format size : PyVal) (w : World) :
  response_format <> VStr "url" ->
  response_format <> VStr "b64_json" ->
  (exists e,
     _construct_image_create_resp_from_cache image_data response_format size w
     = (Raise e, w)) /\
  (forall img_bytes img pieces new_size buffered,
     b64decode image_data = Ok img_bytes ->
     pil_open img_bytes = Ok img ->
     py_split_x size = Ok pieces ->
     map_res py_int pieces = Ok new_size ->
     image_payload img_bytes img new_size = Ok buffered ->
     _construct_image_create_resp_from_cache image_data response_format size w
     = (Raise (AttributeError
                 ("Invalid response_format: " +:+ py_str response_format
                  +:+ " is not one of ['url', 'b64_json']")), w)).
Proof.
  intros Hu Hb.
  apply py_eq_str_false in Hu. apply py_eq_str_false in Hb.
  split; [now apply builder_unsupported_raises|].
  intros img_bytes img pieces new_size buffered H1 H2 H3 H4 H5.
  rewrite (builder_prepared _ _ _ _ _ _ _ _ _ H1 H2 H3 H4 H5).
  rewrite Hu, Hb. reflexivity.
Qed.

Lemma unsupported_response_format_fails_witness :
  @_construct_image_create_resp_from_cache Sample.runtime Sample.pillow
    (VBytes [x02; x03]) (VStr "bogus") (VStr "2x3") Sample.empty_world
  = (Raise (AttributeError
              "Invalid response_format: bogus is not one of ['url', 'b64_json']"),
     Sample.empty_world).
Proof.
  destruct (@unsupported_response_format_fails Sample.runtime Sample.pillow
              (VBytes [x02; x03]) (VStr "bogus") (VStr "2x3") Sample.empty_world)
    as (_ & H); [discriminate | discriminate |].
  apply (H [x02; x03] (2%N, 3%N) ["2"; "3"] [2; 3]%Z [x02; x03]); reflexivity.
Defined.

Lemma builder_delivers `{RT : Runtime} `{PIL : Pillow}
    image_data size w img_bytes img pieces new_size buffered :
  b64decode image_data = Ok img_bytes ->
  pil_open img_bytes = Ok img ->
  py_split_x size = Ok pieces ->
  map_res py_int pieces = Ok new_size ->
  image_payload img_bytes img new_size = Ok buffered ->
  delivers image_data size w buffered.
Proof.
  intros H1 H2 H3 H4 H5. split.
  - do 2 eexists.
    rewrite (builder_prepared _ _ _ _ _ _ _ _ _ H1 H2 H3 H4 H5).
    split; reflexivity.
  - do 3 eexists.
    rewrite (builder_prepared _ _ _ _ _ _ _ _ _ H1 H2 H3 H4 H5).
    split; reflexivity.
Qed.

Lemma sample_pillow_contract : @pillow_contract Sample.pillow.
Proof.
  split.
  - intros img new_size resized. cbn.
    destruct new_size as [|w [|h [|]]]; try discriminate.
    destruct (0 <? w)%Z eqn:Hw; [|discriminate].
    destruct (0 <? h)%Z eqn:Hh; [|discriminate].
    cbn. intros [= <-]. cbn.
    apply Z.ltb_lt in Hw, Hh. now rewrite !Z2N.id by lia.
  - intros [iw ih] out. cbn.
    destruct (Byte.of_N iw) as [bw|] eqn:Ew; [|discriminate].
    destruct (Byte.of_N ih) as [bh|] eqn:Eh; [|discriminate].
    intros [= <-]. eexists. split; [reflexivity|]. cbn.
    now rewrite (@Byte.to_of_N iw bw Ew), (@Byte.to_of_N ih bh Eh).
Qed.

(** C5.  For a stored image that decodes and a size that parses: when the
    requested size is the image's own, the bytes handed out are the stored
    image bytes themselves, nothing being re-encoded; when it differs, and
    Pillow resizes and saves the image, the bytes handed out are the JPEG of
    the resized image, which decode to an image of exactly the requested
    dimensions. *)
Theorem image_builder_resize `{RT : Runtime} `{PIL : Pillow}
    (image_data : PyVal) (size : string) (img_bytes : list byte)
    (img : PILImage) (new_size : list Z) (w : World) :
  pillow_contract ->
  b64decode image_data = Ok img_bytes ->
  pil_open img_bytes = Ok img ->
  map_res py_int (split_on "x"%char size) = Ok new_size ->
  (new_size = pil_size img ->
   delivers image_data (VStr size) w img_bytes) /\
  (new_size <> pil_size img ->
   forall resized out,
     pil_resize img new_size = Ok resized ->
     pil_save_jpeg resized = Ok out ->
     delivers image_data (VStr size) w out /\
     exists decoded, pil_open out = Ok decoded /\ pil_size decoded = new_size).
Proof.
  intros [Hresize Hsave] H1 H2 H4. split.
  - intros Hsame.
    apply (builder_delivers image_data (VStr size) w img_bytes img
             (split_on "x"%char size) new_size _ H1 H2 eq_refl H4).
    unfold image_payload. destruct (decide (new_size <> pil_size img)); [|reflexivity].
    contradiction.
  - intros Hdiff resized out Hr Hs. split.
    + apply (builder_delivers image_data (VStr size) w img_bytes img
             (split_on "x"%char size) new_size _ H1 H2 eq_refl H4).
      unfold image_payload.
      destruct (decide (new_size <> pil_size img)); [|contradiction].
      now rewrite Hr.
    + destruct (Hsave _ _ Hs) as (decoded & Hopen & Hsize).
      exists decoded. split; [exact Hopen|].
      rewrite Hsize. exact (Hresize _ _ _ Hr).
Qed.

Lemma image_builder_resize_witness :
  @delivers Sample.runtime Sample.pillow (VBytes [x02; x03]) (VStr "4x5")
    Sample.empty_world [x04; x05] /\
  exists decoded,
    @pil_open Sample.pillow [x04; x05] = Ok decoded /\
    @pil_size Sample.pillow decoded = [4; 5]%Z.
Proof.
  destruct (@image_builder_resize Sample.runtime Sample.pillow
              (VBytes [x02; x03]) "4x5" [x02; x03] (2%N, 3%N) [4; 5]%Z
              Sample.empty_world sample_pillow_contract eq_refl eq_refl eq_refl)
    as (_ & H).
  apply (H ltac:(discriminate) (4%N, 5%N) [x04; x05]); reflexivity.
Defined.

(** ** Moderation: the consistency retry *)

Section ModerationTheory.
Context `{RT : Runtime} `{BE : Backend} `{CC : CacheCore}.

(** Counting the results only reads. *)
Lemma results_len_reads res w r w' :
  Moderation.results_len res w = (r, w') -> w' = w.
Proof.
  unfold Moderation.results_len, bind, read_value, lift.
  destruct (heap w !! res) as [[v| |]|]; try (intros [= _ <-]; reflexivity).
  destruct (py_get v "results"); intros [= _ <-]; reflexivity.
Qed.

Lemma create_when_counts_agree args kwargs w res w1 :
  moderation_adapt args (fill_base_args kwargs) w = (Ok res, w1) ->
  Moderation.results_len res w1
    = (Ok (Moderation.expect_res_len (fill_base_args kwargs)), w1) ->
  Moderation.create args kwargs w = (Ok res, w1).
Proof.
  intros Hrun Hlen. unfold Moderation.create.
  rewrite (bind_ok _ _ _ _ _ Hrun), (bind_ok _ _ _ _ _ Hlen).
  now rewrite Nat.eqb_refl.
Qed.

Lemma create_when_counts_differ args kwargs w res w1 n :
  moderation_adapt args (fill_base_args kwargs) w = (Ok res, w1) ->
  Moderation.results_len res w1 = (Ok n, w1) ->
  n <> Moderation.expect_res_len (fill_base_args kwargs) ->
  Moderation.create args kwargs w
  = moderation_adapt args
      (<["cache_skip" := VBool true]> (fill_base_args kwargs)) w1.
Proof.
  intros Hrun Hlen Hne. unfold Moderation.create.
  rewrite (bind_ok _ _ _ _ _ Hrun), (bind_ok _ _ _ _ _ Hlen).
  apply Nat.eqb_neq in Hne. now rewrite Hne.
Qed.

End ModerationTheory.

(** The count the check reads: the length of the list under ["results"]
    in the response. *)
Lemma results_len_counts_list res kvs (results : list PyVal) w :
  heap w !! res = Some (OValue (VDict kvs)) ->
  assoc_get "results" kvs = Some (VList results) ->
  Moderation.results_len res w = (Ok (length results), w).
Proof.
  intros Hres Hget.
  unfold Moderation.results_len, bind, read_value, lift.
  rewrite Hres. cbn. now rewrite Hget.
Qed.

(** C6.  [expect_res_len] is 1 for a string input and the length of a list
    input.  After the first call through [adapt] has returned a response
    whose ["results"] entry is the list [results]: if the length of
    [results] equals [expect_res_len] the first result is returned and
    [adapt] has been called once; otherwise [adapt] is called once more,
    with the same keyword arguments and [cache_skip=True], and whatever that
    call gives is returned. *)
Theorem moderation_retries_once_on_mismatch
    `{RT : Runtime} `{BE : Backend} `{CC : CacheCore}
    (args : list PyVal) (kwargs : Kwargs) (w w1 : World) (res : loc)
    (kvs : list (string * PyVal)) (results : list PyVal) :
  let kw := fill_base_args kwargs in
  moderation_adapt args kw w = (Ok res, w1) ->
  heap w1 !! res = Some (OValue (VDict kvs)) ->
  assoc_get "results" kvs = Some (VList results) ->
  (forall s, kw !! "input" = Some (VStr s) -> Moderation.expect_res_len kw = 1) /\
  (forall xs, kw !! "input" = Some (VList xs) ->
              Moderation.expect_res_len kw = length xs) /\
  (length results = Moderation.expect_res_len kw ->
   Moderation.create args kwargs w = (Ok res, w1) /\
   adapt_calls w1 = adapt_calls w ++ [kw]) /\
  (length results <> Moderation.expect_res_len kw ->
   Moderation.create args kwargs w
   = moderation_adapt args (<["cache_skip" := VBool true]> kw) w1 /\
   forall r2 w2,
     Moderation.create args kwargs w = (r2, w2) ->
     adapt_calls w2
     = adapt_calls w ++ [kw; <["cache_skip" := VBool true]> kw]).
Proof.
  intros kw Hrun Hres Hget. subst kw.
  pose proof (results_len_counts_list res kvs results w1 Hres Hget) as Hlen.
  split; [|split; [|split]].
  - intros s Hin. unfold Moderation.expect_res_len. now rewrite Hin.
  - intros xs Hin. unfold Moderation.expect_res_len. now rewrite Hin.
  - intros Heq. rewrite Heq in Hlen. split.
    + now apply create_when_counts_agree.
    + exact (adapt_records _ _ _ _ _ _ _ _ Hrun).
  - intros Hne. split.
    + now apply create_when_counts_differ with res (length results).
    + intros r2 w2 Hcreate.
      rewrite (create_when_counts_differ _ _ _ _ _ _ Hrun Hlen Hne) in Hcreate.
      rewrite (adapt_records _ _ _ _ _ _ _ _ Hcreate).
      rewrite (adapt_records _ _ _ _ _ _ _ _ Hrun).
      now rewrite <- app_assoc.
Qed.

Lemma moderation_retries_once_on_mismatch_witness :
  exists w1,
    @moderation_adapt Sample.runtime Sample.backend Sample.stale_core []
      Sample.batch_kwargs Sample.empty_world = (Ok 1%positive, w1) /\
    heap w1 !! 1%positive
    = Some (OValue (VDict [("results", VList [Sample.one_result])])) /\
    @Moderation.create Sample.runtime Sample.backend Sample.stale_core []
      Sample.batch_kwargs Sample.empty_world
    = @moderation_adapt Sample.runtime Sample.backend Sample.stale_core []
        (<["cache_skip" := VBool true]> Sample.batch_kwargs) w1.
Proof.
  set (w1 := snd (@moderation_adapt Sample.runtime Sample.backend
                    Sample.stale_core [] Sample.batch_kwargs Sample.empty_world)).
  assert (Hrun : @moderation_adapt Sample.runtime Sample.backend
                   Sample.stale_core []
                   (@fill_base_args Sample.stale_core Sample.batch_kwargs)
                   Sample.empty_world = (Ok 1%positive, w1))
    by (vm_compute; reflexivity).
  assert (Hres : heap w1 !! 1%positive
                 = Some (OValue (VDict [("results", VList [Sample.one_result])])))
    by (vm_compute; reflexivity).
  destruct (@moderation_retries_once_on_mismatch Sample.runtime Sample.backend
              Sample.stale_core [] Sample.batch_kwargs Sample.empty_world w1
              1%positive [("results", VList [Sample.one_result])]
              [Sample.one_result] Hrun Hres eq_refl) as (_ & _ & _ & Hretry).
  exists w1. split; [exact Hrun|]. split; [exact Hres|].
  apply Hretry. vm_compute. discriminate.
Defined.

(** C7, counterexample.  Behind a core whose every answer has one result,
    a batch of three inputs gets, without any exception, a response with one
    result. *)
Lemma moderation_returns_mismatched_cardinality :
  exists res w',
    @Moderation.create Sample.runtime Sample.backend Sample.stubborn_core []
      Sample.batch_kwargs Sample.empty_world = (Ok res, w') /\
    Moderation.results_len res w' = (Ok 1, w') /\
    Moderation.expect_res_len
      (@fill_base_args Sample.stubborn_core Sample.batch_kwargs) = 3.
Proof.
  do 2 eexists. split; [vm_compute; reflexivity|].
  split; vm_compute; reflexivity.
Qed.

(** C7, amended.  Provided every successful cache-bypassing call (the one
    made with [cache_skip=True]) returns as many results as the request has
    inputs, every moderation call that returns successfully returns a
    response with as many results as the request has inputs, whatever the
    cache-reading first call gave. *)
Theorem moderation_cardinality_when_fresh_calls_agree
    `{RT : Runtime} `{BE : Backend} `{CC : CacheCore}
    (args : list PyVal) (kwargs : Kwargs) (w w' : World) (res : loc) :
  let kw := fill_base_args kwargs in
  (forall w1 r w2,
     moderation_adapt args (<["cache_skip" := VBool true]> kw) w1 = (Ok r, w2) ->
     Moderation.results_len r w2 = (Ok (Moderation.expect_res_len kw), w2)) ->
  Moderation.create args kwargs w = (Ok res, w') ->
  Moderation.results_len res w' = (Ok (Moderation.expect_res_len kw), w').
Proof.
  intros kw Hfresh Hcreate. subst kw.
  unfold Moderation.create in Hcreate. unfold bind at 1 in Hcreate.
  fold moderation_adapt in Hcreate.
  destruct (moderation_adapt args (fill_base_args kwargs) w)
    as [[res1|e] w1] eqn:Hrun; [|discriminate Hcreate].
  unfold bind at 1 in Hcreate.
  destruct (Moderation.results_len res1 w1) as [[n|e] w1'] eqn:Hlen;
    [|discriminate Hcreate].
  pose proof (results_len_reads _ _ _ _ Hlen) as ->.
  destruct (Nat.eqb_spec n (Moderation.expect_res_len (fill_base_args kwargs)))
    as [Heq|Hne]; cbn [negb] in Hcreate.
  - unfold ret in Hcreate. inversion Hcreate; subst. exact Hlen.
  - exact (Hfresh _ _ _ Hcreate).
Qed.

Lemma sample_fresh_calls_agree w1 r w2 :
  @moderation_adapt Sample.runtime Sample.backend Sample.stale_core []
    (<["cache_skip" := VBool true]> Sample.batch_kwargs) w1 = (Ok r, w2) ->
  Moderation.results_len r w2 = (Ok 3, w2).
Proof.
  assert (Hres : Sample.fresh_results
                   (<["cache_skip" := VBool true]> Sample.batch_kwargs)
                 = VList [Sample.one_result; Sample.one_result; Sample.one_result])
    by (vm_compute; reflexivity).
  assert (Hskip : (<["cache_skip" := VBool true]> Sample.batch_kwargs : Kwargs)
                  !! "cache_skip" = Some (VBool true))
    by apply lookup_insert_eq.
  unfold moderation_adapt, adapt, adapt_impl, Sample.stale_core.
  rewrite Hskip, Hres. unfold alloc. intros [= <- <-].
  unfold Moderation.results_len, bind, read_value, lift.
  cbn [heap set_adapt_calls set_obj set_heap].
  rewrite lookup_insert_eq. reflexivity.
Qed.

Lemma moderation_cardinality_when_fresh_calls_agree_witness :
  Moderation.results_len 2%positive
    (snd (@Moderation.create Sample.runtime Sample.backend Sample.stale_core []
            Sample.batch_kwargs Sample.empty_world))
  = (Ok 3,
     snd (@Moderation.create Sample.runtime Sample.backend Sample.stale_core []
            Sample.batch_kwargs Sample.empty_world)).
Proof.
  apply (@moderation_cardinality_when_fresh_calls_agree Sample.runtime
           Sample.backend Sample.stale_core [] Sample.batch_kwargs
           Sample.empty_world).
  - exact sample_fresh_calls_agree.
  - vm_compute. reflexivity.
Defined.

(** ** Token accounting *)

Lemma set_tokenized_same w : set_tokenized (tokenized w) w = w.
Proof. now destruct w. Qed.



Section TokenTheory.
Context `{TK : Tokenizer}.

Lemma count_items_run items : forall num_tokens w,
  count_items items num_tokens w
  = (Ok (num_tokens + sum_Z (map (fun kv => count_tokens (snd kv)) items)
         + name_count items)%Z,
     set_tokenized (tokenized w ++ map snd items) w).
Proof.
  induction items as [|[key value] rest IH]; intros num_tokens w.
  - cbn. unfold ret. rewrite app_nil_r, set_tokenized_same.
    f_equal. f_equal. lia.
  - cbn [count_items]. unfold bind at 1, token_counter at 1.
    rewrite IH. cbn [tokenized set_tokenized map snd sum_Z foldr name_count].
    rewrite <- app_assoc. cbn [app]. f_equal. f_equal.
    destruct (String.eqb key "name"); unfold tokens_per_name;
      fold (sum_Z (map (fun kv => count_tokens (snd kv)) rest)); lia.
Qed.


End TokenTheory.



(** * Further properties of the module *)

(** ** The streaming extractor under any storage hook *)

Section StreamingFurther.
Context `{RU : ResponseUtils}.
Variable update_cache_func : Answer -> Py unit.

Import ChatCompletion.

(** While items remain the hook is not reached, whatever it is. *)
Lemma next_forwards w src g c rest acc s d :
  streaming w src g (c :: rest) acc ->
  get_stream_message_from_openai_answer c = Ok s ->
  exists w',
    py_next update_cache_func (S (S d)) g w = (Ok (Yielded c), w') /\
    streaming w' src g rest (acc +:+ s) /\
    stored w' = stored w.
Proof.
  intros (Hne & Hsrc & st & Hst & Hg) Hs.
  eexists. split; [|split].
  - cbn [py_next]. rewrite Hg. cbn [gen_status gen_it total_answer].
    assert (Hin : heap (set_obj g (OGen (mkGen src acc GEN_RUNNING)) w) !! src
                  = Some (OStream (c :: rest))).
    { cbn. rewrite lookup_insert_ne by congruence. exact Hsrc. }
    destruct Hst as [-> | ->]; cbn [py_next]; rewrite Hin, Hs; reflexivity.
  - repeat split.
    + exact Hne.
    + cbn. rewrite lookup_insert_ne by congruence.
      now rewrite lookup_insert_eq.
    + exists GEN_SUSPENDED. split; [now right|].
      cbn. now rewrite lookup_insert_eq.
  - reflexivity.
Qed.

Lemma pull_forwards d post : forall pre ds w src g acc,
  streaming w src g (pre ++ post) acc ->
  Forall2 (fun c s => get_stream_message_from_openai_answer c = Ok s) pre ds ->
  exists w',
    pull update_cache_func (S (S d)) (length pre) g w = (Ok (pre, false), w') /\
    streaming w' src g post (acc +:+ join_text ds) /\
    stored w' = stored w.
Proof.
  intros pre ds w src g acc Hinv Hds. revert w acc Hinv.
  induction Hds as [|c s pre ds Hs Hds IH]; intros w acc Hinv.
  - exists w. cbn. rewrite append_empty_r. auto.
  - destruct (next_forwards _ _ _ _ _ _ _ d Hinv Hs) as (w1 & Hstep & Hinv1 & Hst1).
    destruct (IH w1 (acc +:+ s) Hinv1) as (w2 & Hrest & Hinv2 & Hst2).
    exists w2. split; [|split].
    + cbn [length pull]. rewrite (bind_ok _ _ _ _ _ Hstep).
      rewrite (bind_ok _ _ _ _ _ Hrest). reflexivity.
    + rewrite append_assoc in Hinv2. exact Hinv2.
    + congruence.
Qed.

(** A chunk the reader cannot read: the generator raises where it would
    have yielded, and is finished. *)
Lemma next_reader_fails w src g c rest acc e d :
  streaming w src g (c :: rest) acc ->
  get_stream_message_from_openai_answer c = Raise e ->
  exists w',
    py_next update_cache_func (S (S d)) g w = (Raise e, w') /\
    closed w' src g acc /\
    heap w' !! src = Some (OStream rest) /\
    stored w' = stored w.
Proof.
  intros (Hne & Hsrc & st & Hst & Hg) Hs.
  eexists. split; [|split; [|split]].
  - cbn [py_next]. rewrite Hg. cbn [gen_status gen_it total_answer].
    assert (Hin : heap (set_obj g (OGen (mkGen src acc GEN_RUNNING)) w) !! src
                  = Some (OStream (c :: rest))).
    { cbn. rewrite lookup_insert_ne by congruence. exact Hsrc. }
    destruct Hst as [-> | ->]; cbn [py_next]; rewrite Hin, Hs; reflexivity.
  - unfold closed. cbn. now rewrite lookup_insert_eq.
  - cbn. rewrite lookup_insert_ne by congruence. now rewrite lookup_insert_eq.
  - reflexivity.
Qed.

(** At the end of the items the hook is called with the accumulated text;
    if it raises, so does the generator, which is finished all the same. *)
Lemma next_hook_fails w src g acc e d :
  streaming w src g [] acc ->
  (forall a w0, update_cache_func a w0 = (Raise e, w0)) ->
  exists w',
    py_next update_cache_func (S (S d)) g w = (Raise e, w') /\
    closed w' src g acc /\
    stored w' = stored w.
Proof.
  intros (Hne & Hsrc & st & Hst & Hg) Hf.
  eexists. split; [|split].
  - cbn [py_next]. rewrite Hg. cbn [gen_status gen_it total_answer].
    assert (Hin : heap (set_obj g (OGen (mkGen src acc GEN_RUNNING)) w) !! src
                  = Some (OStream [])).
    { cbn. rewrite lookup_insert_ne by congruence. exact Hsrc. }
    destruct Hst as [-> | ->]; cbn [py_next]; rewrite Hin, Hf; reflexivity.
  - unfold closed. cbn. now rewrite lookup_insert_eq.
  - reflexivity.
Qed.

(** Taking an item from the backend's iterator itself, past the wrapper. *)
Lemma next_direct w src g c rest acc d :
  streaming w src g (c :: rest) acc ->
  exists w',
    py_next update_cache_func (S d) src w = (Ok (Yielded c), w') /\
    streaming w' src g rest acc /\
    stored w' = stored w.
Proof.
  intros (Hne & Hsrc & st & Hst & Hg).
  eexists. split; [|split].
  - cbn [py_next]. rewrite Hsrc. reflexivity.
  - repeat split.
    + exact Hne.
    + cbn. now rewrite lookup_insert_eq.
    + exists st. split; [exact Hst|].
      cbn. now rewrite lookup_insert_ne by congruence.
  - reflexivity.
Qed.
End StreamingFurther.

(** X1.  The wrapper never reads ahead: building it takes nothing from the
    backend's iterator, and when the consumer has received [k] chunks
    exactly those [k] have been taken from it, whatever the storage hook. *)
Theorem wrapper_takes_chunks_on_demand `{RU : ResponseUtils}
    (update_cache_func : Answer -> Py unit)
    (w : World) (src : loc) (cs : list PyVal) (ds : list string) (d k : nat) :
  heap w !! src = Some (OStream cs) ->
  Forall2 (fun c s => get_stream_message_from_openai_answer c = Ok s)
          (take k cs) ds ->
  k <= length cs ->
  exists g w0 w1,
    ChatCompletion._update_cache_callback src update_cache_func w = (Ok g, w0) /\
    heap w0 !! src = Some (OStream cs) /\
    ChatCompletion.pull update_cache_func (S (S d)) k g w0
      = (Ok (take k cs, false), w1) /\
    heap w1 !! src = Some (OStream (drop k cs)).
Proof.
  intros Hsrc Hds Hk.
  destruct (callback_wraps update_cache_func w src cs Hsrc)
    as (g & w0 & Hcb & Hinv & _ & _).
  pose proof Hinv as (_ & Hsrc0 & _).
  rewrite <- (take_drop k cs) in Hinv.
  destruct (pull_forwards update_cache_func d (drop k cs) (take k cs) ds
              w0 src g "" Hinv Hds) as (w1 & Hpull & (_ & Hsrc1 & _) & _).
  rewrite length_take, Nat.min_l in Hpull by lia.
  exists g, w0, w1. auto.
Qed.

Lemma wrapper_takes_chunks_on_demand_witness :
  exists g w0 w1,
    @ChatCompletion._update_cache_callback Sample.utils 1%positive cache_store
      Sample.stream_world = (Ok g, w0) /\
    heap w0 !! 1%positive = Some (OStream Sample.chunks) /\
    @ChatCompletion.pull Sample.utils cache_store 2 1 g w0
      = (Ok (take 1 Sample.chunks, false), w1) /\
    heap w1 !! 1%positive = Some (OStream (drop 1 Sample.chunks)).
Proof.
  apply (@wrapper_takes_chunks_on_demand Sample.utils cache_store
           Sample.stream_world 1%positive Sample.chunks [""] 0 1).
  - reflexivity.
  - repeat constructor.
  - cbn. lia.
Defined.

(** X2.  A chunk the delta reader cannot read ends the stream: the chunks
    before it are delivered, the request that reaches it raises the reader's
    exception, the chunk itself has been taken from the backend's iterator
    but is never delivered, nothing is stored, and the generator is finished
    (a further request finds it exhausted and still stores nothing). *)
Theorem unreadable_chunk_ends_stream_without_store `{RU : ResponseUtils}
    (w : World) (src : loc) (pre post : list PyVal) (bad : PyVal)
    (ds : list string) (e : Exn) (d : nat) :
  heap w !! src = Some (OStream (pre ++ bad :: post)) ->
  Forall2 (fun c s => get_stream_message_from_openai_answer c = Ok s) pre ds ->
  get_stream_message_from_openai_answer bad = Raise e ->
  exists g w0 w1 w2,
    ChatCompletion._update_cache_callback src cache_store w = (Ok g, w0) /\
    ChatCompletion.pull cache_store (S (S d)) (length pre) g w0
      = (Ok (pre, false), w1) /\
    ChatCompletion.py_next cache_store (S (S d)) g w1 = (Raise e, w2) /\
    heap w2 !! src = Some (OStream post) /\
    stored w2 = stored w /\
    ChatCompletion.py_next cache_store (S (S d)) g w2 = (Ok Exhausted, w2).
Proof.
  intros Hsrc Hds Hbad.
  destruct (callback_wraps cache_store w src _ Hsrc)
    as (g & w0 & Hcb & Hinv & _ & Hst0).
  destruct (pull_forwards cache_store d (bad :: post) pre ds w0 src g "" Hinv Hds)
    as (w1 & Hpull & Hinv1 & Hst1).
  destruct (next_reader_fails cache_store w1 src g bad post _ e d Hinv1 Hbad)
    as (w2 & Hnext & Hcl & Hsrc2 & Hst2).
  exists g, w0, w1, w2. repeat split; try assumption.
  - congruence.
  - exact (next_closed cache_store w2 src g _ (S d) Hcl).
Qed.

Lemma unreadable_chunk_ends_stream_without_store_witness :
  exists g w0 w1 w2,
    @ChatCompletion._update_cache_callback Sample.utils 1%positive cache_store
      Sample.broken_stream_world = (Ok g, w0) /\
    @ChatCompletion.pull Sample.utils cache_store 2 1 g w0
      = (Ok ([VDict [("content", VStr "Hel")]], false), w1) /\
    @ChatCompletion.py_next Sample.utils cache_store 2 g w1
      = (Raise (TypeError "can only concatenate str"), w2) /\
    heap w2 !! 1%positive = Some (OStream [VDict [("content", VStr "lo")]]) /\
    stored w2 = [] /\
    @ChatCompletion.py_next Sample.utils cache_store 2 g w2 = (Ok Exhausted, w2).
Proof.
  apply (@unreadable_chunk_ends_stream_without_store Sample.utils
           Sample.broken_stream_world 1%positive
           [VDict [("content", VStr "Hel")]] [VDict [("content", VStr "lo")]]
           (VDict [("content", VInt 7)]) ["Hel"]
           (TypeError "can only concatenate str") 0).
  - reflexivity.
  - repeat constructor.
  - reflexivity.
Defined.

(** X3.  When the storage hook raises, the consumer has by then received
    every chunk: the failure reaches it only at the request after the last
    chunk, in place of the end of the sequence, and the generator is
    finished, so the hook is not called again. *)
Theorem store_failure_surfaces_after_last_chunk `{RU : ResponseUtils}
    (update_cache_func : Answer -> Py unit) (e : Exn)
    (w : World) (src : loc) (cs : list PyVal) (ds : list string) (d : nat) :
  (forall a w0, update_cache_func a w0 = (Raise e, w0)) ->
  heap w !! src = Some (OStream cs) ->
  Forall2 (fun c s => get_stream_message_from_openai_answer c = Ok s) cs ds ->
  exists g w0 w1 w2,
    ChatCompletion._update_cache_callback src update_cache_func w = (Ok g, w0) /\
    ChatCompletion.pull update_cache_func (S (S d)) (length cs) g w0
      = (Ok (cs, false), w1) /\
    ChatCompletion.py_next update_cache_func (S (S d)) g w1 = (Raise e, w2) /\
    ChatCompletion.py_next update_cache_func (S (S d)) g w2 = (Ok Exhausted, w2).
Proof.
  intros Hf Hsrc Hds.
  destruct (callback_wraps update_cache_func w src cs Hsrc)
    as (g & w0 & Hcb & Hinv & _ & _).
  assert (Hinv' : streaming w0 src g (cs ++ []) "") by now rewrite app_nil_r.
  destruct (pull_forwards update_cache_func d [] cs ds w0 src g "" Hinv' Hds)
    as (w1 & Hpull & Hinv1 & _).
  destruct (next_hook_fails update_cache_func w1 src g _ e d Hinv1 Hf)
    as (w2 & Hnext & Hcl & _).
  exists g, w0, w1, w2. repeat split; try assumption.
  exact (next_closed update_cache_func w2 src g _ (S d) Hcl).
Qed.

Lemma store_failure_surfaces_after_last_chunk_witness :
  exists g w0 w1 w2,
    @ChatCompletion._update_cache_callback Sample.utils 1%positive
      Sample.failing_store Sample.stream_world = (Ok g, w0) /\
    @ChatCompletion.pull Sample.utils Sample.failing_store 2 3 g w0
      = (Ok (Sample.chunks, false), w1) /\
    @ChatCompletion.py_next Sample.utils Sample.failing_store 2 g w1
      = (Raise (CacheError "cache unavailable"), w2) /\
    @ChatCompletion.py_next Sample.utils Sample.failing_store 2 g w2
      = (Ok Exhausted, w2).
Proof.
  apply (@store_failure_surfaces_after_last_chunk Sample.utils
           Sample.failing_store (CacheError "cache unavailable")
           Sample.stream_world 1%positive Sample.chunks [""; "Hel"; "lo"] 0).
  - reflexivity.
  - reflexivity.
  - repeat constructor.
Defined.

(** X4.  The wrapper shares the backend's iterator with whoever else holds
    it: a chunk taken from the iterator directly, between two requests to
    the wrapper, is neither delivered by the wrapper nor part of the text it
    stores. *)
Theorem chunk_taken_directly_is_skipped `{RU : ResponseUtils}
    (w : World) (src : loc) (pre post : list PyVal) (c : PyVal)
    (ds_pre ds_post : list string) (d : nat) :
  heap w !! src = Some (OStream (pre ++ c :: post)) ->
  Forall2 (fun c s => get_stream_message_from_openai_answer c = Ok s) pre ds_pre ->
  Forall2 (fun c s => get_stream_message_from_openai_answer c = Ok s) post ds_post ->
  exists g w0 w1 w2 w3,
    ChatCompletion._update_cache_callback src cache_store w = (Ok g, w0) /\
    ChatCompletion.pull cache_store (S (S d)) (length pre) g w0
      = (Ok (pre, false), w1) /\
    ChatCompletion.py_next cache_store (S (S d)) src w1 = (Ok (Yielded c), w2) /\
    ChatCompletion.pull cache_store (S (S d)) (S (length post)) g w2
      = (Ok (post, true), w3) /\
    stored w3
    = stored w ++ [mkAnswer (VStr (join_text ds_pre +:+ join_text ds_post)) STR].
Proof.
  intros Hsrc Hpre Hpost.
  destruct (callback_wraps cache_store w src _ Hsrc)
    as (g & w0 & Hcb & Hinv & _ & Hst0).
  destruct (pull_forwards cache_store d (c :: post) pre ds_pre w0 src g ""
              Hinv Hpre) as (w1 & Hpull & Hinv1 & Hst1).
  destruct (next_direct cache_store w1 src g c post _ (S d) Hinv1)
    as (w2 & Hdirect & Hinv2 & Hst2).
  destruct (pull_all d 0 w2 src g post ds_post _ Hinv2 Hpost)
    as (w3 & Hrest & _ & Hst3).
  rewrite Nat.add_0_r in Hrest.
  exists g, w0, w1, w2, w3. repeat split; try assumption.
  rewrite Hst3, Hst2, Hst1, Hst0. reflexivity.
Qed.

Lemma chunk_taken_directly_is_skipped_witness :
  exists g w0 w1 w2 w3,
    @ChatCompletion._update_cache_callback Sample.utils 1%positive cache_store
      Sample.stream_world = (Ok g, w0) /\
    @ChatCompletion.pull Sample.utils cache_store 2 1 g w0
      = (Ok ([VDict [("role", VStr "assistant")]], false), w1) /\
    @ChatCompletion.py_next Sample.utils cache_store 2 1%positive w1
      = (Ok (Yielded (VDict [("content", VStr "Hel")])), w2) /\
    @ChatCompletion.pull Sample.utils cache_store 2 2 g w2
      = (Ok ([VDict [("content", VStr "lo")]], true), w3) /\
    stored w3 = [mkAnswer (VStr "lo") STR].
Proof.
  apply (@chunk_taken_directly_is_skipped Sample.utils Sample.stream_world
           1%positive [VDict [("role", VStr "assistant")]]
           [VDict [("content", VStr "lo")]] (VDict [("content", VStr "Hel")])
           [""] ["lo"] 0).
  - reflexivity.
  - repeat constructor.
  - repeat constructor.
Defined.

(** ** The callbacks: what a failure leaves behind *)

(** Takes a run of a callback under the recording hook apart, keeping the
    world each step leaves. *)
Ltac run_recording H :=
  unfold bind, ret, raise, lift, read_value, cache_store in H;
  repeat (cbv beta iota in H;
          match type of H with
          | context [match ?x with _ => _ end] =>
            lazymatch x with
            | context [match _ with _ => _ end] => fail
            | _ => destruct x eqn:?; cbv beta iota in H; try discriminate H
            end
          end);
  try (inversion H; subst; clear H).


(** X6.  A callback on a response that is not an iterator hands at most
    one answer to the storage hook and changes nothing else in the world;
    the response object itself is never written to. *)
Theorem callbacks_store_at_most_once `{RU : ResponseUtils} `{RT : Runtime} :
  stores_at_most_once Completion._update_cache_callback /\
  stores_at_most_once Audio.update_cache_callback /\
  (forall response_format,
     stores_at_most_once (Image.update_cache_callback response_format)) /\
  stores_at_most_once Moderation._update_cache_callback /\
  (forall llm_data w r w',
     isinstance_Iterator llm_data w = (Ok false, w) ->
     ChatCompletion._update_cache_callback llm_data cache_store w = (Ok r, w') ->
     exists a, w' = set_stored (stored w ++ [a]) w).
Proof.
  repeat split.
  - intros l w r w' H. unfold Completion._update_cache_callback in H.
    run_recording H; right; eauto.
  - intros l w r w' H. unfold Audio.update_cache_callback in H.
    run_recording H; right; eauto.
  - intros rf l w r w' H. unfold Image.update_cache_callback in H.
    unfold encode_ascii in H. run_recording H; solve [now left | right; eauto].
  - intros l w r w' H. unfold Moderation._update_cache_callback in H.
    run_recording H; right; eauto.
  - intros l w r w' Hit H. unfold ChatCompletion._update_cache_callback in H.
    rewrite (bind_ok _ _ _ _ _ Hit) in H. cbn [negb] in H.
    run_recording H; eauto.
Qed.


Lemma callbacks_store_at_most_once_witness :
  exists a,
    snd (@ChatCompletion._update_cache_callback Sample.utils 1%positive
           cache_store Sample.response_world)
    = set_stored (stored Sample.response_world ++ [a]) Sample.response_world.
Proof.
  destruct (@callbacks_store_at_most_once Sample.utils Sample.runtime)
    as (_ & _ & _ & _ & H).
  apply (H 1%positive Sample.response_world 1%positive); reflexivity.
Defined.

(** ** The image builder: effects and the order of its checks *)

(** Takes a run apart by cases, innermost test first. *)
Ltac by_cases H :=
  repeat (cbv beta iota in H;
          match type of H with
          | context [match ?x with _ => _ end] =>
            lazymatch x with
            | context [match _ with _ => _ end] => fail
            | _ => destruct x eqn:?; cbv beta iota in H; try discriminate H
            end
          end);
  try (inversion H; subst; clear H).

Lemma py_eq_str_true (v : PyVal) (s : string) :
  py_eq_str v s = true -> v = VStr s.
Proof.
  destruct v; try discriminate. cbn. intros H.
  apply String.eqb_eq in H. now subst.
Qed.

(** X7.  The image builder touches nothing but files and the clock: the
    object store and the record of stored answers, tokenizer calls and adapt
    calls are as before; and unless [response_format] is ["url"] no file is
    written at all, and a build that raises leaves the whole world as it
    was. *)
Theorem image_builder_effects `{RT : Runtime} `{PIL : Pillow}
    (image_data response_format size : PyVal) (w w' : World) (r : Res PyVal) :
  _construct_image_create_resp_from_cache image_data response_format size w
    = (r, w') ->
  heap w' = heap w /\
  stored w' = stored w /\
  tokenized w' = tokenized w /\
  adapt_calls w' = adapt_calls w /\
  (response_format <> VStr "url" -> files w' = files w) /\
  (response_format <> VStr "url" -> forall e, r = Raise e -> w' = w).
Proof.
  intros H.
  unfold _construct_image_create_resp_from_cache, bind, lift, ret, raise,
    time_time, write_file in H.
  by_cases H; repeat split; try reflexivity;
    try (intros Hne; exfalso; apply Hne; now apply py_eq_str_true);
    try (intros Hne e Hr; first [discriminate Hr | reflexivity]).
Qed.

Lemma image_builder_effects_witness :
  files (snd (@_construct_image_create_resp_from_cache Sample.runtime
                Sample.pillow (VBytes [x02; x03]) (VStr "b64_json")
                (VStr "4x5") Sample.empty_world))
  = files Sample.empty_world.
Proof.
  destruct (@image_builder_effects Sample.runtime Sample.pillow
              (VBytes [x02; x03]) (VStr "b64_json") (VStr "4x5")
              Sample.empty_world _ _ (surjective_pairing _))
    as (_ & _ & _ & _ & H & _).
  apply H. discriminate.
Defined.

(** X8.  The builder looks at [response_format] last.  A payload that does
    not decode, bytes that are no image, a size that is no string or does
    not parse, a resize or re-encoding that fails: each is reported as it
    is, world unchanged, for every [response_format], a supported one or
    not. *)
Theorem image_builder_reports_payload_errors_first `{RT : Runtime} `{PIL : Pillow}
    (image_data response_format size : PyVal) (w : World) (e : Exn) :
  (b64decode image_data = Raise e ->
   _construct_image_create_resp_from_cache image_data response_format size w
   = (Raise e, w)) /\
  (forall img_bytes,
     b64decode image_data = Ok img_bytes ->
     pil_open img_bytes = Raise e ->
     _construct_image_create_resp_from_cache image_data response_format size w
     = (Raise e, w)) /\
  (forall img_bytes img,
     b64decode image_data = Ok img_bytes ->
     pil_open img_bytes = Ok img ->
     py_split_x size = Raise e ->
     _construct_image_create_resp_from_cache image_data response_format size w
     = (Raise e, w)) /\
  (forall img_bytes img pieces,
     b64decode image_data = Ok img_bytes ->
     pil_open img_bytes = Ok img ->
     py_split_x size = Ok pieces ->
     map_res py_int pieces = Raise e ->
     _construct_image_create_resp_from_cache image_data response_format size w
     = (Raise e, w)) /\
  (forall img_bytes img pieces new_size,
     b64decode image_data = Ok img_bytes ->
     pil_open img_bytes = Ok img ->
     py_split_x size = Ok pieces ->
     map_res py_int pieces = Ok new_size ->
     image_payload img_bytes img new_size = Raise e ->
     _construct_image_create_resp_from_cache image_data response_format size w
     = (Raise e, w)).
Proof.
  unfold _construct_image_create_resp_from_cache, bind, lift.
  repeat split; intros.
  - now rewrite H.
  - now rewrite H, H0.
  - now rewrite H, H0, H1.
  - now rewrite H, H0, H1, H2.
  - now rewrite H, H0, H1, H2, H3.
Qed.

Lemma image_builder_reports_payload_errors_first_witness :
  @_construct_image_create_resp_from_cache Sample.runtime Sample.pillow
    (VBytes [x02; x03]) (VStr "bogus") (VStr "4by5") Sample.empty_world
  = (Raise (ValueError "invalid literal for int()"), Sample.empty_world).
Proof.
  destruct (@image_builder_reports_payload_errors_first Sample.runtime
              Sample.pillow (VBytes [x02; x03]) (VStr "bogus") (VStr "4by5")
              Sample.empty_world (ValueError "invalid literal for int()"))
    as (_ & _ & _ & H & _).
  apply (H [x02; x03] (2%N, 3%N) ["4by5"]); reflexivity.
Defined.

Lemma builder_url_run `{RT : Runtime} `{PIL : Pillow}
    image_data size buffered w :
  prepares image_data size buffered ->
  let path := abspath (py_str (VInt (time_at (ticks w))) +:+ ".jpeg") in
  _construct_image_create_resp_from_cache image_data (VStr "url") size w
  = (Ok (image_envelope (time_at (S (ticks w))) ("url", VStr path)),
     set_ticks (S (S (ticks w))) (set_files (<[path := buffered]> (files w)) w)).
Proof.
  intros (img_bytes & img & pieces & new_size & H1 & H2 & H3 & H4 & H5).
  cbn zeta. rewrite (builder_prepared _ _ _ _ _ _ _ _ _ H1 H2 H3 H4 H5).
  reflexivity.
Qed.

(** X9.  The file of a ["url"] response is named
    [abspath(str(t) + ".jpeg")] for the whole second [t] read from the clock,
    and nothing else enters the name.  So two builds whose clock readings
    for the name agree both return that one path, and the file then holds
    the bytes of the second build: the first response's image is
    overwritten. *)
Theorem url_builds_in_one_second_share_a_file `{RT : Runtime} `{PIL : Pillow}
    (image_data1 size1 image_data2 size2 : PyVal)
    (buffered1 buffered2 : list byte) (w : World) :
  prepares image_data1 size1 buffered1 ->
  prepares image_data2 size2 buffered2 ->
  time_at (S (S (ticks w))) = time_at (ticks w) ->
  let path := abspath (py_str (VInt (time_at (ticks w))) +:+ ".jpeg") in
  exists created1 created2 w1 w2,
    _construct_image_create_resp_from_cache image_data1 (VStr "url") size1 w
      = (Ok (image_envelope created1 ("url", VStr path)), w1) /\
    files w1 = <[path := buffered1]> (files w) /\
    _construct_image_create_resp_from_cache image_data2 (VStr "url") size2 w1
      = (Ok (image_envelope created2 ("url", VStr path)), w2) /\
    files w2 = <[path := buffered2]> (files w).
Proof.
  intros Hp1 Hp2 Hclock path.
  pose proof (builder_url_run image_data1 size1 buffered1 w Hp1) as Hrun1.
  cbn zeta in Hrun1. fold path in Hrun1.
  do 4 eexists. split; [exact Hrun1|]. split; [reflexivity|].
  split.
  - rewrite (builder_url_run image_data2 size2 buffered2 _ Hp2).
    cbn zeta. unfold set_ticks at 2 3 4. cbn [ticks]. rewrite Hclock.
    fold path. reflexivity.
  - cbn [files set_ticks set_files ticks]. rewrite Hclock. fold path.
    apply insert_insert_eq.
Qed.

Lemma sample_prepares_same_size :
  @prepares Sample.still_runtime Sample.pillow (VBytes [x02; x03]) (VStr "2x3")
    [x02; x03].
Proof. exists [x02; x03], (2%N, 3%N), ["2"; "3"], [2; 3]%Z. now repeat split. Qed.

Lemma sample_prepares_resized :
  @prepares Sample.still_runtime Sample.pillow (VBytes [x07; x07]) (VStr "4x5")
    [x04; x05].
Proof. exists [x07; x07], (7%N, 7%N), ["4"; "5"], [4; 5]%Z. now repeat split. Qed.

Lemma url_builds_in_one_second_share_a_file_witness :
  exists created1 created2 w1 w2,
    @_construct_image_create_resp_from_cache Sample.still_runtime Sample.pillow
      (VBytes [x02; x03]) (VStr "url") (VStr "2x3") Sample.empty_world
      = (Ok (image_envelope created1 ("url", VStr "/cwd/1700000000.jpeg")), w1) /\
    files w1 = <["/cwd/1700000000.jpeg" := [x02; x03]]> ∅ /\
    @_construct_image_create_resp_from_cache Sample.still_runtime Sample.pillow
      (VBytes [x07; x07]) (VStr "url") (VStr "4x5") w1
      = (Ok (image_envelope created2 ("url", VStr "/cwd/1700000000.jpeg")), w2) /\
    files w2 = <["/cwd/1700000000.jpeg" := [x04; x05]]> ∅.
Proof.
  apply (@url_builds_in_one_second_share_a_file Sample.still_runtime
           Sample.pillow (VBytes [x02; x03]) (VStr "2x3")
           (VBytes [x07; x07]) (VStr "4x5") [x02; x03] [x04; x05]
           Sample.empty_world).
  - exact sample_prepares_same_size.
  - exact sample_prepares_resized.
  - reflexivity.
Defined.

(** ** Moderation: failures and the number of calls *)

(** X10.  Moderation never retries a failure.  If the first call through
    [adapt] raises, or if its response has no results that can be counted
    (no ["results"] entry, for one), the exception reaches the caller and
    [adapt] has been called exactly once. *)
Theorem moderation_failures_are_not_retried
    `{RT : Runtime} `{BE : Backend} `{CC : CacheCore}
    (args : list PyVal) (kwargs : Kwargs) (w w1 : World) (e : Exn) :
  let kw := fill_base_args kwargs in
  (moderation_adapt args kw w = (Raise e, w1) ->
   Moderation.create args kwargs w = (Raise e, w1) /\
   adapt_calls w1 = adapt_calls w ++ [kw]) /\
  (forall res,
     moderation_adapt args kw w = (Ok res, w1) ->
     Moderation.results_len res w1 = (Raise e, w1) ->
     Moderation.create args kwargs w = (Raise e, w1) /\
     adapt_calls w1 = adapt_calls w ++ [kw]) /\
  (forall res kvs,
     heap w1 !! res = Some (OValue (VDict kvs)) ->
     assoc_get "results" kvs = None ->
     Moderation.results_len res w1
     = (Raise (TypeError "object has no len()"), w1)).
Proof.
  intros kw. subst kw. split; [|split].
  - intros Hrun. split.
    + unfold Moderation.create. fold moderation_adapt.
      unfold bind at 1. fold moderation_adapt. now rewrite Hrun.
    + exact (adapt_records _ _ _ _ _ _ _ _ Hrun).
  - intros res Hrun Hlen. split.
    + unfold Moderation.create. fold moderation_adapt.
      rewrite (bind_ok _ _ _ _ _ Hrun). unfold bind at 1. now rewrite Hlen.
    + exact (adapt_records _ _ _ _ _ _ _ _ Hrun).
  - intros res kvs Hres Hnone.
    unfold Moderation.results_len, bind, read_value, lift.
    rewrite Hres. cbn. now rewrite Hnone.
Qed.

Lemma moderation_failures_are_not_retried_witness :
  @Moderation.create Sample.runtime Sample.backend Sample.broken_core []
    Sample.batch_kwargs Sample.empty_world
  = (Raise (CacheError "no backend"),
     set_adapt_calls [Sample.batch_kwargs] Sample.empty_world) /\
  adapt_calls (set_adapt_calls [Sample.batch_kwargs] Sample.empty_world)
  = adapt_calls Sample.empty_world ++ [Sample.batch_kwargs].
Proof.
  destruct (@moderation_failures_are_not_retried Sample.runtime Sample.backend
              Sample.broken_core [] Sample.batch_kwargs Sample.empty_world
              (set_adapt_calls [Sample.batch_kwargs] Sample.empty_world)
              (CacheError "no backend")) as (H & _).
  apply H. reflexivity.
Defined.

(** X11.  Whatever the cache and the backend do, one moderation request
    makes one call through [adapt] or two, never more; a second call is the
    first with [cache_skip=True] added. *)
Theorem moderation_calls_adapt_at_most_twice
    `{RT : Runtime} `{BE : Backend} `{CC : CacheCore}
    (args : list PyVal) (kwargs : Kwargs) (w w' : World) (r : Res loc) :
  Moderation.create args kwargs w = (r, w') ->
  let kw := fill_base_args kwargs in
  adapt_calls w' = adapt_calls w ++ [kw] \/
  adapt_calls w' = adapt_calls w ++ [kw; <["cache_skip" := VBool true]> kw].
Proof.
  intros Hcreate kw. subst kw.
  unfold Moderation.create in Hcreate. fold moderation_adapt in Hcreate.
  unfold bind at 1 in Hcreate.
  destruct (moderation_adapt args (fill_base_args kwargs) w)
    as [[res1|e] w1] eqn:Hrun.
  - pose proof (adapt_records _ _ _ _ _ _ _ _ Hrun) as Hcalls1.
    unfold bind at 1 in Hcreate.
    destruct (Moderation.results_len res1 w1) as [[n|e] w1'] eqn:Hlen.
    + pose proof (results_len_reads _ _ _ _ Hlen) as ->.
      destruct (negb (Nat.eqb n (Moderation.expect_res_len (fill_base_args kwargs)))).
      * right. rewrite (adapt_records _ _ _ _ _ _ _ _ Hcreate), Hcalls1.
        now rewrite <- app_assoc.
      * left. unfold ret in Hcreate. now inversion Hcreate; subst.
    + pose proof (results_len_reads _ _ _ _ Hlen) as ->.
      left. now inversion Hcreate; subst.
  - left. inversion Hcreate; subst.
    exact (adapt_records _ _ _ _ _ _ _ _ Hrun).
Qed.

Lemma moderation_calls_adapt_at_most_twice_witness :
  adapt_calls (snd (@Moderation.create Sample.runtime Sample.backend
                      Sample.garbled_core [] Sample.batch_kwargs
                      Sample.empty_world))
  = adapt_calls Sample.empty_world ++ [Sample.batch_kwargs] \/
  adapt_calls (snd (@Moderation.create Sample.runtime Sample.backend
                      Sample.garbled_core [] Sample.batch_kwargs
                      Sample.empty_world))
  = adapt_calls Sample.empty_world
    ++ [Sample.batch_kwargs; <["cache_skip" := VBool true]> Sample.batch_kwargs].
Proof.
  apply (@moderation_calls_adapt_at_most_twice Sample.runtime Sample.backend
           Sample.garbled_core [] Sample.batch_kwargs Sample.empty_world _ _
           (surjective_pairing _)).
Defined.

(** ** Token accounting: arbitrary messages, composition, failures *)

Section TokenFurther.
Context `{TK : Tokenizer}.

(** The outer loop over a run of dictionaries, then over whatever
    follows. *)
Lemma count_messages_dicts_then pre : forall rest num_tokens w,
  count_messages (map VDict pre ++ rest) num_tokens w
  = count_messages rest
      (num_tokens + sum_Z (map message_cost pre))%Z
      (set_tokenized (tokenized w ++ concat (map (map snd) pre)) w).
Proof.
  induction pre as [|message pre IH]; intros rest num_tokens w.
  - cbn. now rewrite Z.add_0_r, app_nil_r, set_tokenized_same.
  - cbn [map app count_messages]. unfold bind at 1, lift at 1. cbn [py_items].
    unfold bind at 1. rewrite count_items_run, IH.
    cbn [tokenized set_tokenized concat sum_Z foldr].
    rewrite <- app_assoc. f_equal.
    change (message_cost message)
      with (3 + sum_Z (map (fun kv => count_tokens (snd kv)) message)
            + name_count message)%Z.
    unfold tokens_per_message. fold (sum_Z (map message_cost pre)). lia.
Qed.

Lemma num_tokens_of_dicts (messages : list (list (string * PyVal))) w :
  _num_tokens_from_messages (VList (map VDict messages)) w
  = (Ok (sum_Z (map message_cost messages) + 3)%Z,
     set_tokenized (tokenized w ++ concat (map (map snd) messages)) w).
Proof.
  unfold _num_tokens_from_messages. unfold bind at 1, lift at 1. cbn [py_iter].
  unfold bind at 1.
  rewrite <- (app_nil_r (map VDict messages)), count_messages_dicts_then.
  reflexivity.
Qed.

Lemma num_tokens_bad_message pre bad post e w :
  py_items bad = Raise e ->
  _num_tokens_from_messages (VList (map VDict pre ++ bad :: post)) w
  = (Raise e, set_tokenized (tokenized w ++ concat (map (map snd) pre)) w).
Proof.
  intros Hbad. unfold _num_tokens_from_messages.
  unfold bind at 1, lift at 1. cbn [py_iter]. unfold bind at 1.
  rewrite count_messages_dicts_then.
  cbn [count_messages]. unfold bind at 1, lift at 1. now rewrite Hbad.
Qed.

Lemma bind_raises {A B} (m : Py A) (k : A -> Py B) w e w' :
  m w = (Raise e, w') -> bind m k w = (Raise e, w').
Proof. intros H. unfold bind. now rewrite H. Qed.

Lemma sum_Z_app xs ys : sum_Z (xs ++ ys) = (sum_Z xs + sum_Z ys)%Z.
Proof.
  induction xs as [|x xs IH]; [reflexivity|].
  cbn [app sum_Z foldr]. fold (sum_Z (xs ++ ys)). fold (sum_Z xs). lia.
Qed.

Lemma message_cost_lower message :
  (forall v, (0 <= count_tokens v)%Z) -> (3 <= message_cost message)%Z.
Proof.
  intros Hpos. unfold message_cost.
  assert (0 <= sum_Z (map (fun kv => count_tokens (snd kv)) message))%Z.
  { induction message as [|kv message IH]; [reflexivity|].
    cbn [map sum_Z foldr].
    fold (sum_Z (map (fun kv => count_tokens (snd kv)) message)).
    specialize (Hpos (snd kv)). lia. }
  assert (0 <= name_count message)%Z.
  { clear. induction message as [|[key v] message IH]; [reflexivity|].
    cbn [name_count]. destruct (String.eqb key "name"); lia. }
  lia.
Qed.
End TokenFurther.

(** X12.  Counting the prompt tokens of two message lists put end to end
    gives the sum of their counts less 3: the overhead of 3 for reply
    priming is charged once per call, all else per message. *)
Theorem prompt_tokens_of_concatenation `{TK : Tokenizer}
    (xs ys : list (list (string * PyVal))) (w : World) :
  exists a b,
    fst (_num_tokens_from_messages (VList (map VDict xs)) w) = Ok a /\
    fst (_num_tokens_from_messages (VList (map VDict ys)) w) = Ok b /\
    fst (_num_tokens_from_messages (VList (map VDict (xs ++ ys))) w)
    = Ok (a + b - 3)%Z.
Proof.
  do 2 eexists. rewrite !num_tokens_of_dicts. cbn [fst].
  split; [reflexivity|]. split; [reflexivity|].
  rewrite map_app, sum_Z_app. f_equal. lia.
Qed.

(** X13.  With a tokenizer that never counts below zero, a prompt of [n]
    messages costs at least [3 * n + 3] tokens, whatever the messages hold;
    an empty message still costs 3. *)
Theorem prompt_tokens_lower_bound `{TK : Tokenizer}
    (messages : list (list (string * PyVal))) (w : World) :
  (forall v, (0 <= count_tokens v)%Z) ->
  exists n,
    fst (_num_tokens_from_messages (VList (map VDict messages)) w) = Ok n /\
    (3 * Z.of_nat (length messages) + 3 <= n)%Z.
Proof.
  intros Hpos. eexists. rewrite num_tokens_of_dicts. cbn [fst].
  split; [reflexivity|].
  induction messages as [|message messages IH].
  - cbn. lia.
  - cbn [map sum_Z foldr length]. fold (sum_Z (map message_cost messages)).
    pose proof (message_cost_lower message Hpos). lia.
Qed.

Lemma sample_tokenizer_counts_up v : (0 <= @count_tokens Sample.tokenizer v)%Z.
Proof. destruct v; cbn; lia. Qed.

Lemma prompt_tokens_lower_bound_witness :
  exists n,
    fst (@_num_tokens_from_messages Sample.tokenizer
           (VList (map VDict [Sample.hi_message; []])) Sample.empty_world)
    = Ok n /\
    (3 * Z.of_nat (length [Sample.hi_message; []]) + 3 <= n)%Z.
Proof.
  apply (@prompt_tokens_lower_bound Sample.tokenizer [Sample.hi_message; []]
           Sample.empty_world).
  exact sample_tokenizer_counts_up.
Defined.

(** X14.  With token accounting enabled a cache hit needs the request's
    messages.  Without a [messages] keyword (or with [messages=None]) the
    conversion raises a TypeError before anything is counted or built; and a
    message that is no dictionary raises where its items are asked for,
    after the values of the messages before it have been tokenized, again
    with no response built. *)
Theorem token_accounting_needs_messages `{RT : Runtime} `{TK : Tokenizer}
    (kwargs : Kwargs) (cache_data : PyVal) (w : World) :
  (kwargs !! "messages" = None \/ kwargs !! "messages" = Some VNone ->
   ChatCompletion.cache_data_convert true kwargs cache_data w
   = (Raise (TypeError "object is not iterable"), w)) /\
  (forall pre bad post e,
     kwargs !! "messages" = Some (VList (map VDict pre ++ bad :: post)) ->
     py_items bad = Raise e ->
     ChatCompletion.cache_data_convert true kwargs cache_data w
     = (Raise e,
        set_tokenized (tokenized w ++ concat (map (map snd) pre)) w)).
Proof.
  split.
  - intros Hm. unfold ChatCompletion.cache_data_convert.
    assert (Hnone : default VNone (kwargs !! "messages") = VNone)
      by (destruct Hm as [-> | ->]; reflexivity).
    rewrite Hnone. reflexivity.
  - intros pre bad post e Hm Hbad.
    unfold ChatCompletion.cache_data_convert. rewrite Hm. cbn [default].
    apply bind_raises. apply bind_raises.
    now apply num_tokens_bad_message.
Qed.

Lemma token_accounting_needs_messages_witness :
  @ChatCompletion.cache_data_convert Sample.runtime Sample.tokenizer true
    ∅ (VStr "hello") Sample.empty_world
  = (Raise (TypeError "object is not iterable"), Sample.empty_world).
Proof.
  destruct (@token_accounting_needs_messages Sample.runtime Sample.tokenizer
              ∅ (VStr "hello") Sample.empty_world) as (H & _).
  apply H. left. reflexivity.
Defined.

(** ** The live-call handlers *)

Section HandlerTheory.
Context `{BE : Backend}.

Lemma wrapping_errors_normalises (guarded : LlmHandler) :
  normalises guarded (fun llm_args llm_kwargs =>
                        wrapping_errors (guarded llm_args llm_kwargs)).
Proof.
  intros llm_args llm_kwargs w. unfold wrapping_errors.
  destruct (guarded llm_args llm_kwargs w) as [[res|[]] w']; reflexivity.
Qed.

Lemma normalised_never_backend_error (guarded handler : LlmHandler) :
  (forall msg msg', wrap_error msg <> OpenAIError msg') ->
  normalises guarded handler ->
  forall llm_args llm_kwargs w msg w',
    handler llm_args llm_kwargs w <> (Raise (OpenAIError msg), w').
Proof.
  intros Hwrap Hnorm llm_args llm_kwargs w msg w' Hrun.
  specialize (Hnorm llm_args llm_kwargs w).
  destruct (guarded llm_args llm_kwargs w) as [[res|[]] w1];
    rewrite Hrun in Hnorm; try discriminate Hnorm.
  inversion Hnorm as [[Heq Hw]]. symmetry in Heq. exact (Hwrap _ _ Heq).
Qed.
End HandlerTheory.

(** X15.  Every live-call handler turns an [OpenAIError] of the call it
    guards into [wrap_error] of it and hands on any other outcome, result or
    exception, with the world as the call left it.  The chat, completion and
    moderation handlers guard the class's [llm] when one is set and the
    backend's entry point otherwise; the image and audio handlers always
    guard the backend's entry point.  Hence, when [wrap_error] never gives
    an [OpenAIError], none of the six handlers ever raises one. *)
Theorem llm_handlers_normalise_backend_errors `{BE : Backend} :
  normalises (live_call EP_ChatCompletion) ChatCompletion._llm_handler /\
  normalises (live_call EP_Completion) Completion._llm_handler /\
  normalises (live_call EP_Moderation) Moderation._llm_handler /\
  normalises (openai_call EP_Image) Image._llm_handler /\
  normalises (openai_call EP_Transcribe) (Audio.llm_handler EP_Transcribe) /\
  normalises (openai_call EP_Translate) (Audio.llm_handler EP_Translate) /\
  ((forall msg msg', wrap_error msg <> OpenAIError msg') ->
   forall handler, In handler llm_handlers ->
   forall llm_args llm_kwargs w msg w',
     handler llm_args llm_kwargs w <> (Raise (OpenAIError msg), w')).
Proof.
  assert (Hchat : normalises (live_call EP_ChatCompletion)
                    ChatCompletion._llm_handler).
  { intros a k w. unfold ChatCompletion._llm_handler, live_call.
    destruct (cls_llm EP_ChatCompletion) as [llm|].
    - exact (wrapping_errors_normalises llm a k w).
    - exact (wrapping_errors_normalises (openai_call EP_ChatCompletion) a k w). }
  assert (Hcompletion : normalises (live_call EP_Completion)
                          Completion._llm_handler).
  { intros a k w. unfold Completion._llm_handler, live_call.
    destruct (cls_llm EP_Completion) as [llm|].
    - exact (wrapping_errors_normalises llm a k w).
    - exact (wrapping_errors_normalises (openai_call EP_Completion) a k w). }
  assert (Hmoderation : normalises (live_call EP_Moderation)
                          Moderation._llm_handler).
  { intros a k w. unfold Moderation._llm_handler, live_call.
    destruct (cls_llm EP_Moderation) as [llm|].
    - exact (wrapping_errors_normalises llm a k w).
    - exact (wrapping_errors_normalises (openai_call EP_Moderation) a k w). }
  pose proof (wrapping_errors_normalises (openai_call EP_Image)) as Himage.
  pose proof (wrapping_errors_normalises (openai_call EP_Transcribe)) as Htr.
  pose proof (wrapping_errors_normalises (openai_call EP_Translate)) as Htl.
  repeat (split; [assumption|]).
  intros Hwrap handler Hin.
  unfold llm_handlers in Hin. cbn [In] in Hin.
  destruct Hin as [<-|[<-|[<-|[<-|[<-|[<-|[]]]]]]];
    eapply normalised_never_backend_error; eassumption.
Qed.

Lemma llm_handlers_normalise_backend_errors_witness :
  @ChatCompletion._llm_handler Sample.backend [] ∅ Sample.empty_world
  <> (Raise (OpenAIError "no network"), Sample.empty_world).
Proof.
  destruct (@llm_handlers_normalise_backend_errors Sample.backend)
    as (_ & _ & _ & _ & _ & _ & H).
  apply H.
  - discriminate.
  - left. reflexivity.
Defined.

(** ** Round trips through the cache *)

(** X16.  A moderation result that was stored comes back as it was: the
    extractor stores [json.dumps] of the live result and the builder answers
    a hit with [json.loads] of the stored text, so whenever [json.loads]
    undoes [json.dumps] on that result, the response built from the stored
    answer is the live result. *)
Theorem moderation_cache_round_trip `{RT : Runtime}
    (l : loc) (v : PyVal) (text : string) (w : World) :
  heap w !! l = Some (OValue v) ->
  json_dumps v = Ok text ->
  json_loads (VStr text) = Ok v ->
  exists a w1,
    Moderation._update_cache_callback l cache_store w = (Ok l, w1) /\
    stored w1 = stored w ++ [a] /\
    answer_type a = STR /\
    Moderation._cache_data_convert (answer a) w1 = (Ok v, w1).
Proof.
  intros Hl Hdump Hload.
  exists (mkAnswer (VStr text) STR). eexists.
  split; [exact (moderation_stores l v text w Hl Hdump)|].
  split; [reflexivity|]. split; [reflexivity|].
  unfold Moderation._cache_data_convert, lift. cbn [answer]. now rewrite Hload.
Qed.

Lemma moderation_cache_round_trip_witness :
  exists a w1,
    @Moderation._update_cache_callback Sample.runtime 1%positive
      cache_store Sample.text_world = (Ok 1%positive, w1) /\
    stored w1 = stored Sample.text_world ++ [a] /\
    answer_type a = STR /\
    @Moderation._cache_data_convert Sample.runtime (answer a) w1
    = (Ok (VStr "flagged"), w1).
Proof.
  apply (@moderation_cache_round_trip Sample.runtime 1%positive
           (VStr "flagged") "flagged" Sample.text_world); reflexivity.
Defined.

(** X17.  An image stored from a ["b64_json"] response comes back as the
    same base64 text: when the live payload is ASCII text in canonical
    base64 (encoding what it decodes to gives it back) of an image whose
    size is the one requested, building a ["b64_json"] response from the
    stored answer returns that very text, and writes no file. *)
Theorem image_b64_cache_round_trip `{RU : ResponseUtils} `{RT : Runtime}
    `{PIL : Pillow}
    (l : loc) (v : PyVal) (payload size : string) (bs raw : list byte)
    (img : PILImage) (w : World) :
  heap w !! l = Some (OValue v) ->
  get_image_from_openai_b64 v = Ok (VStr payload) ->
  encode_ascii payload = Ok bs ->
  b64decode (VBytes bs) = Ok raw ->
  b64encode raw = bs ->
  pil_open raw = Ok img ->
  map_res py_int (split_on "x"%char size) = Ok (pil_size img) ->
  exists a w1 created w2,
    Image.update_cache_callback (VStr "b64_json") l cache_store w = (Ok l, w1) /\
    stored w1 = stored w ++ [a] /\
    _construct_image_create_resp_from_cache (answer a) (VStr "b64_json")
      (VStr size) w1
    = (Ok (image_envelope created ("b64_json", VStr payload)), w2) /\
    files w2 = files w.
Proof.
  intros Hl Hget Henc Hdec Hcanon Hopen Hsize.
  assert (Hbs : bs = list_byte_of_string payload).
  { unfold encode_ascii in Henc.
    destruct (forallb _ _); [now inversion Henc | discriminate Henc]. }
  exists (mkAnswer (VBytes bs) IMAGE_BASE64). do 3 eexists.
  split; [exact (image_b64_str_stores l v payload bs w Hl Hget Henc)|].
  split; [reflexivity|]. cbn [answer].
  assert (Hpay : image_payload raw img (pil_size img) = Ok raw).
  { unfold image_payload.
    destruct (decide (pil_size img <> pil_size img)); [contradiction | reflexivity]. }
  rewrite (builder_prepared (VBytes bs) (VStr "b64_json") (VStr size) _
             raw img (split_on "x"%char size) (pil_size img) raw
             Hdec Hopen eq_refl Hsize Hpay).
  split.
  - cbn. unfold bind, ret, time_time. cbn.
    rewrite Hcanon, Hbs, string_of_list_byte_of_string. reflexivity.
  - reflexivity.
Qed.

Lemma image_b64_cache_round_trip_witness :
  exists a w1 created w2,
    @Image.update_cache_callback Sample.utils (VStr "b64_json") 1%positive
      cache_store Sample.tiny_image_world = (Ok 1%positive, w1) /\
    stored w1 = stored Sample.tiny_image_world ++ [a] /\
    @_construct_image_create_resp_from_cache Sample.runtime Sample.pillow
      (answer a) (VStr "b64_json") (VStr "2x3") w1
    = (Ok (image_envelope created ("b64_json", VStr Sample.tiny_payload)), w2) /\
    files w2 = files Sample.tiny_image_world.
Proof.
  apply (@image_b64_cache_round_trip Sample.utils Sample.runtime Sample.pillow
           1%positive (VDict [("b64_json", VStr Sample.tiny_payload)])
           Sample.tiny_payload "2x3" [x02; x03] [x02; x03] (2%N, 3%N)
           Sample.tiny_image_world); reflexivity.
Defined.

(** ** The text builders: where the cached answer is found *)


